(** * Junction: an m-of-n multisignature wallet coordinator

    A shallow embedding of [junction.py] (class [MultisigWallet]) and the
    properties of its coordination state machine: signer quorum,
    descriptor construction, address allocation with its sorted-key
    retry, chunked watch-only export, the single in-flight PSBT, and the
    balance oracle.

    Python integers are unbounded, hence [Z].  The wallet object is
    mutated in place and exceptions leave the mutations made so far
    visible, hence a state monad whose outcome is a value or a raised
    exception, with the state returned in both cases. *)

From Stdlib Require Import ZArith String List Ascii Lia.
From stdpp Require Import gmap strings list fin_maps pretty.
From Stdlib Require Import Sorted.

Open Scope string_scope.
Open Scope list_scope.
Open Scope Z_scope.

(** ** Exceptions *)

(** The exception classes that the methods of [MultisigWallet] raise or
    let through.  [OtherException] stands for any exception class of a
    collaborator that is neither of the above (a refused connection, an
    I/O error). *)
Inductive exn : Type :=
| JunctionError (msg : string)
| JSONRPCException (msg : string)
| AssertionError (msg : string)
| AttributeError (msg : string)
| IndexError (msg : string)
| KeyError (key : string)
| RecursionError
| OtherException (msg : string).

(** [str(e)], as used by [JunctionError(e)] in [ensure_watchonly]. *)
Definition exn_str (e : exn) : string :=
  match e with
  | JunctionError msg => msg
  | JSONRPCException msg => msg
  | AssertionError msg => msg
  | AttributeError msg => msg
  | IndexError msg => msg
  | KeyError key => key
  | RecursionError => "maximum recursion depth exceeded"
  | OtherException msg => msg
  end.

Definition is_JSONRPCException (e : exn) : bool :=
  match e with JSONRPCException _ => true | _ => false end.

Inductive outcome (A : Type) : Type :=
| Returned (a : A)
| Raised (e : exn).
Arguments Returned {A} a.
Arguments Raised {A} e.

Definition returned {A} (o : outcome A) : bool :=
  match o with Returned _ => true | Raised _ => false end.

(** ** The state-and-exception monad *)

Definition M (S A : Type) : Type := S -> outcome A * S.

Definition ret {S A} (a : A) : M S A := fun s => (Returned a, s).

Definition bind {S A B} (c : M S A) (k : A -> M S B) : M S B :=
  fun s => match c s with
           | (Returned a, s') => k a s'
           | (Raised e, s') => (Raised e, s')
           end.

Definition raise {S A} (e : exn) : M S A := fun s => (Raised e, s).

Definition modify {S} (f : S -> S) : M S unit := fun s => (Returned tt, f s).

(** [try: c except e: h e] where [h e = None] means that no [except]
    clause matches [e], which then propagates. *)
Definition try_except {S A} (c : M S A) (h : exn -> option (M S A)) : M S A :=
  fun s => match c s with
           | (Returned a, s') => (Returned a, s')
           | (Raised e, s') =>
               match h e with
               | Some handler => handler s'
               | None => (Raised e, s')
               end
           end.

Declare Scope py_scope.
Delimit Scope py_scope with py.
Notation "x <- c ;; k" := (bind c (fun x => k))
  (at level 100, c at next level, right associativity) : py_scope.
Notation "c ;;; k" := (bind c (fun _ => k))
  (at level 100, right associativity) : py_scope.
Open Scope py_scope.

(** ** Data model *)

(** A signer record: the dictionary appended by [add_signer]. *)
Record Signer : Type := mkSigner {
  signer_name : string;
  fingerprint : string;
  xpub : string;
  derivation_path : string
}.

(** The part of [hwilib.serializations.PSBT] that the wallet reads: the
    list of inputs, each with its dictionary of partial signatures
    (public key to signature).  The transaction and the outputs are kept
    as opaque text. *)
Record PartiallySignedInput : Type := mkInput {
  partial_sigs : gmap string string
}.

Record PSBT : Type := mkPSBT {
  psbt_tx : string;
  inputs : list PartiallySignedInput;
  psbt_outputs : list string
}.

(** The [psbt] attribute holds [None] (fresh wallet, [remove_psbt]), the
    empty string (what [from_dict] leaves when the record on disk has no
    PSBT) or a [PSBT] object. *)
Inductive psbt_attr : Type :=
| PsbtNone
| PsbtEmptyStr
| PsbtObject (p : PSBT).

(** Python truthiness of the attribute, [if self.psbt]: [None] and the
    empty string are false, a [PSBT] object (a class without [__bool__]
    or [__len__]) is true. *)
Definition psbt_truthy (a : psbt_attr) : bool :=
  match a with PsbtObject _ => true | _ => false end.

Record Wallet : Type := mkWallet {
  name : string;
  m : Z;
  n : Z;
  signers : list Signer;
  psbt : psbt_attr;
  address_index : Z;
  export_index : Z
}.

(** The JSON record written by [save]: [to_dict]'s result. *)
Record wallet_dict : Type := mkDict {
  d_name : string;
  d_m : Z;
  d_n : Z;
  d_signers : list Signer;
  d_psbt : string;
  d_address_index : Z;
  d_export_index : Z
}.

Definition ADDRESS_CHUNK : Z := 100.

Definition set_signers (l : list Signer) (w : Wallet) : Wallet :=
  mkWallet (name w) (m w) (n w) l (psbt w) (address_index w) (export_index w).
Definition set_psbt (p : psbt_attr) (w : Wallet) : Wallet :=
  mkWallet (name w) (m w) (n w) (signers w) p (address_index w) (export_index w).
Definition set_address_index (i : Z) (w : Wallet) : Wallet :=
  mkWallet (name w) (m w) (n w) (signers w) (psbt w) i (export_index w).
Definition set_export_index (i : Z) (w : Wallet) : Wallet :=
  mkWallet (name w) (m w) (n w) (signers w) (psbt w) (address_index w) i.

(** [len(self.signers)] *)
Definition len {A} (l : list A) : Z := Z.of_nat (length l).

(** The double quote character of the f-strings. *)
Definition dq : string := String "034"%char EmptyString.

(** ** The external node

    Every conversation with Bitcoin Core goes through an [RPC] object
    (module [utils], outside this file): [default_rpc] talks to the
    node's default wallet, [wallet_rpc] to the watch-only wallet named
    after the multisig wallet.  A request is modelled as data, so that
    the requests a method has made can be read off a trace. *)

(** One element of the list passed to [importmulti]. *)
Record import_request : Type := mkImport {
  imp_desc : string;
  imp_timestamp : Z;
  imp_range : list Z;
  imp_watchonly : bool;
  imp_keypool : bool;
  imp_internal : bool
}.

(** The options dictionary passed to [walletcreatefundedpsbt]. *)
Record fund_options : Type := mkFundOptions {
  includeWatching : bool;
  changeAddress : string
}.

Record address_info : Type := mkAddressInfo {
  iswatchonly : bool;
  pubkeys : list string
}.

Section Amounts.

(** Bitcoin amounts as the node's JSON decoder yields them.  The wallet
    only adds them up, starting from the integer [0]. *)
Variable amount : Type.

Record unspent : Type := mkUnspent {
  confirmations : Z;
  u_amount : amount
}.

(** The [watchonly] section of a [getbalances] answer; a key may be
    missing. *)
Record watchonly_balances : Type := mkWatchonlyBalances {
  untrusted_pending : option amount;
  trusted : option amount
}.

Record balances_info : Type := mkBalancesInfo {
  watchonly : option watchonly_balances
}.

Inductive rpc_call : Type :=
| listwallets
| loadwallet (wallet_name : string)
| createwallet (wallet_name : string) (disable_private_keys : bool)
| getdescriptorinfo (descriptor : string)
| deriveaddresses (descriptor : string) (range : list Z)
| getaddressinfo (address : string)
| importmulti (requests : list import_request)
| walletcreatefundedpsbt (tx_inputs : list string)
    (tx_outputs : list (string * amount)) (locktime : Z)
    (options : fund_options) (bip32derivs : bool)
| decodepsbt (psbt_text : string)
| finalizepsbt (psbt_text : string)
| sendrawtransaction (hex : string)
| getbalances
| listunspent (minconf maxconf : Z) (addresses : list string)
    (include_unsafe : bool).

(** What the wallet reads from the answer to each request. *)
Definition rpc_answer (c : rpc_call) : Type :=
  match c with
  | listwallets => list string
  | loadwallet _ => unit
  | createwallet _ _ => unit
  | getdescriptorinfo _ => string        (* r['descriptor'] *)
  | deriveaddresses _ _ => list string
  | getaddressinfo _ => address_info
  | importmulti _ => unit
  | walletcreatefundedpsbt _ _ _ _ _ => string  (* r['psbt'] *)
  | decodepsbt _ => string
  | finalizepsbt _ => string             (* r['hex'] *)
  | sendrawtransaction _ => string
  | getbalances => balances_info
  | listunspent _ _ _ _ => list unspent
  end.

(** [None] is the default wallet's endpoint, [Some w] the endpoint of
    the node wallet [w]. *)
Definition endpoint : Type := option string.

(** A request as it is remembered in the trace: where it went, what it
    was, and whether the node answered it (it raised otherwise). *)
Record request : Type := mkRequest {
  req_endpoint : endpoint;
  req_call : rpc_call;
  req_answered : bool
}.

End Amounts.

Arguments mkUnspent {amount}.
Arguments confirmations {amount}.
Arguments u_amount {amount}.
Arguments mkWatchonlyBalances {amount}.
Arguments untrusted_pending {amount}.
Arguments trusted {amount}.
Arguments mkBalancesInfo {amount}.
Arguments watchonly {amount}.
Arguments listwallets {amount}.
Arguments loadwallet {amount}.
Arguments createwallet {amount}.
Arguments getdescriptorinfo {amount}.
Arguments deriveaddresses {amount}.
Arguments getaddressinfo {amount}.
Arguments importmulti {amount}.
Arguments walletcreatefundedpsbt {amount}.
Arguments decodepsbt {amount}.
Arguments finalizepsbt {amount}.
Arguments sendrawtransaction {amount}.
Arguments getbalances {amount}.
Arguments listunspent {amount}.
Arguments rpc_answer {amount}.
Arguments mkRequest {amount}.
Arguments req_endpoint {amount}.
Arguments req_call {amount}.
Arguments req_answered {amount}.

(** Amount arithmetic and the helpers of module [utils] and of
    [hwilib] that the wallet calls. *)
Class Externals (amount : Type) : Type := {
  (** the integer [0] that the balance sums start from *)
  amount_zero : amount;
  (** [+] on amounts *)
  amount_add : amount -> amount -> amount;
  (** [utils.sat_to_btc] *)
  sat_to_btc : Z -> amount;
  (** [disk.DATADIR], the directory that [disk.full_path] prefixes *)
  DATADIR : string;
  (** [PSBT.serialize] *)
  psbt_serialize : PSBT -> string;
  (** [PSBT.deserialize] on a fresh [PSBT()] *)
  psbt_deserialize : string -> outcome PSBT
}.

(** A node: a state and its reaction to a request on an endpoint, an
    answer or a raised exception, with the state that follows. *)
Class BitcoinCore (amount : Type) (Node : Type) : Type := {
  node_call : endpoint -> forall c : rpc_call amount,
      Node -> outcome (rpc_answer c) * Node
}.

(** ** The world a wallet method runs in *)

Section World.

Context {amount Node : Type}.

(** What lies outside the wallet object: the wallet files, the node,
    the requests sent so far (oldest first) and the clock, in whole
    seconds, that [int(time.time())] reads. *)
Record env : Type := mkEnv {
  disk : gmap string wallet_dict;
  node : Node;
  trace : list (request amount);
  now : Z
}.

(** A method body runs on [self] and its environment. *)
Record world : Type := mkWorld {
  self : Wallet;
  outside : env
}.

Definition set_disk (d : gmap string wallet_dict) (e : env) : env :=
  mkEnv d (node e) (trace e) (now e).

Definition update_self (f : Wallet -> Wallet) : M world unit :=
  modify (fun w => mkWorld (f (self w)) (outside w)).

Definition get_self : M world Wallet :=
  fun w => (Returned (self w), w).

(** Lifting of an environment action to a method. *)
Definition in_env {A} (c : M env A) : M world A :=
  fun w => let (r, e) := c (outside w) in (r, mkWorld (self w) e).

(** Running a method on a wallet object held in a local variable; the
    wallet comes back with the answer. *)
Definition on_wallet {A} (wallet : Wallet) (c : M world A) : M env (A * Wallet) :=
  fun e => match c (mkWorld wallet e) with
           | (Returned a, w) => (Returned (a, self w), outside w)
           | (Raised x, w) => (Raised x, outside w)
           end.

End World.

Arguments env : clear implicits.
Arguments world : clear implicits.

(** ** The methods of [MultisigWallet] *)

Section MultisigWallet.

Context {amount Node : Type}.
Context `{Ext : Externals amount} `{Core : BitcoinCore amount Node}.

Local Abbreviation env := (env amount Node).
Local Abbreviation world := (world amount Node).

(** One request to the node: [with rpc as r: r.method(args)].  The
    request is appended to the trace whether it is answered or raises. *)
Definition rpc (ep : endpoint) (c : rpc_call amount) : M env (rpc_answer c) :=
  fun e =>
    let (r, node') := node_call ep c (node e) in
    (r, mkEnv (disk e) node'
              (trace e ++ [mkRequest ep c (returned r)]) (now e)).

(** [self.wallet_rpc], built in [__init__] as [RPC(settings, name)]. *)
Definition wallet_rpc (c : rpc_call amount) : M world (rpc_answer c) :=
  w <- get_self ;; in_env (rpc (Some (name w)) c).

(** [self.default_rpc], built in [__init__] as [RPC(settings)]. *)
Definition default_rpc (c : rpc_call amount) : M world (rpc_answer c) :=
  in_env (rpc None c).

(** [int(time.time())] *)
Definition time_now : M world Z :=
  fun w => (Returned (now (outside w)), w).

(** Modelled from the spec: [disk.full_path], of module [disk] which is
    outside this file; the spec treats persistence as a key-value
    load/save collaborator with one file per wallet.  The full path of
    a path relative to the data directory. *)
Definition full_path (relative_path : string) : string :=
  DATADIR +:+ "/" +:+ relative_path.

(** Modelled from the spec: [disk.write_json_file], a full-state
    overwrite of the file at the full path of [relative_path]. *)
Definition write_json_file (data : wallet_dict) (relative_path : string) : M env unit :=
  modify (fun e => set_disk (<[full_path relative_path := data]> (disk e)) e).


(** Modelled from the spec: [disk.ensure_datadir], which makes sure the
    data directory exists and leaves the wallet files alone. *)
Definition ensure_datadir : M env unit := ret tt.

(** [os.path.exists] *)
Definition os_path_exists (path : string) : M env bool :=
  fun e => (Returned (bool_decide (is_Some (disk e !! path))), e).

(** [ready]: all signers present. *)
Definition ready (w : Wallet) : bool := len (signers w) =? n w.

Definition wallet_file_path (w : Wallet) : string :=
  "wallets/" +:+ name w +:+ ".json".

Definition watchonly_name (w : Wallet) : string := name w.

(** [to_dict] *)
Definition to_dict (w : Wallet) : wallet_dict :=
  mkDict (name w) (m w) (n w) (signers w)
         (match psbt w with
          | PsbtObject p => psbt_serialize p
          | _ => EmptyString
          end)
         (address_index w) (export_index w).

(** [save] *)
Definition save : M world unit :=
  w <- get_self ;;
  let data := to_dict w in
  let relative_path := wallet_file_path w in
  in_env (write_json_file data relative_path).

(** [from_dict]: a non-empty [psbt] text is deserialized, an empty one
    is passed to the constructor as it is. *)
Definition from_dict (d : wallet_dict) : outcome Wallet :=
  match d_psbt d with
  | EmptyString =>
      Returned (mkWallet (d_name d) (d_m d) (d_n d) (d_signers d) PsbtEmptyStr
                         (d_address_index d) (d_export_index d))
  | text =>
      match psbt_deserialize text with
      | Returned p =>
          Returned (mkWallet (d_name d) (d_m d) (d_n d) (d_signers d) (PsbtObject p)
                             (d_address_index d) (d_export_index d))
      | Raised e => Raised e
      end
  end.

(** [ensure_watchonly]: any exception of [listwallets] becomes a
    [JunctionError]; a [JSONRPCException] of [loadwallet] leads to
    [createwallet], whose [JSONRPCException] becomes a [JunctionError];
    other exceptions of these two pass through. *)
Definition ensure_watchonly : M world unit :=
  w <- get_self ;;
  let watch_only_name := watchonly_name w in
  bitcoin_wallets <-
    try_except (default_rpc listwallets)
               (fun e => Some (raise (JunctionError (exn_str e)))) ;;
  if negb (bool_decide (watch_only_name ∈ bitcoin_wallets)) then
    try_except (default_rpc (loadwallet watch_only_name))
      (fun e =>
         if is_JSONRPCException e then
           Some (try_except (default_rpc (createwallet watch_only_name true))
                   (fun e' =>
                      if is_JSONRPCException e' then
                        Some (raise (JunctionError
                          "Couldn't establish watch-only Bitcoin Core wallet"))
                      else None))
         else None)
  else ret tt.

(** [create] (class method): the three sanity checks, then the wallet
    object, the refusal to overwrite a wallet file, the watch-only node
    wallet and the first save. *)
Definition create (name0 : string) (m0 n0 : Z) : M env Wallet :=
  if m0 >? n0 then
    raise (JunctionError (dq +:+ "m" +:+ dq +:+ " (" +:+ pretty m0 +:+
             ") must be no larger than " +:+ dq +:+ "n" +:+ dq +:+
             " (" +:+ pretty n0 +:+ ")"))
  else if m0 <? 1 then
    raise (JunctionError (dq +:+ "m" +:+ dq +:+ " (" +:+ pretty m0 +:+
             ") must be larger than 0"))
  else if n0 >? 5 then
    raise (JunctionError (dq +:+ "n" +:+ dq +:+ " (" +:+ pretty n0 +:+
             ") cannot exceed 5"))
  else
    ensure_datadir ;;;
    let wallet := mkWallet name0 m0 n0 [] PsbtNone 0 0 in
    let wallet_file_path := full_path ("wallets/" +:+ name0 +:+ ".json") in
    file_exists <- os_path_exists wallet_file_path ;;
    if file_exists : bool then
      raise (JunctionError (dq +:+ wallet_file_path +:+ dq +:+
               " wallet file already exists"))
    else
      r <- on_wallet wallet (ensure_watchonly ;;; save) ;;
      ret (snd r).


(** The string built by [descriptor] before the node validates it (the
    local variable [descriptor]). *)
Definition path_prefix : string := "/44h/1h/0h".
Definition path_suffix : string := "/0/*".

Definition xpub_entry (signer : Signer) : string :=
  "[" +:+ fingerprint signer +:+ path_prefix +:+ "]" +:+
  xpub signer +:+ path_suffix.

Definition raw_descriptor (w : Wallet) : string :=
  let xpubs := map xpub_entry (signers w) in
  let xpubs := String.concat "," xpubs in
  "sh(multi(" +:+ pretty (m w) +:+ "," +:+ xpubs +:+ "))".

(** [descriptor]: the node validates the string and appends a
    checksum; its answer is returned. *)
Definition descriptor : M world string :=
  w <- get_self ;;
  wallet_rpc (getdescriptorinfo (raw_descriptor w)).

(** [export_watchonly]: one export cycle. *)
Definition export_watchonly : M world unit :=
  w <- get_self ;;
  let new_export_index := export_index w + ADDRESS_CHUNK in
  desc <- descriptor ;;
  t <- time_now ;;
  w <- get_self ;;
  wallet_rpc (importmulti
    [ mkImport desc (t - 60 * 60 * 24)
               [export_index w; new_export_index]
               true false false ]) ;;;
  update_self (set_export_index new_export_index) ;;;
  save.

(** [sorted] on a list of strings: Python compares strings by code
    point, character by character; the order is total, so the sorted
    list does not depend on the sorting algorithm. *)
Fixpoint insert_sorted (x : string) (l : list string) : list string :=
  match l with
  | [] => [x]
  | y :: l' => if String.leb x y then x :: l else y :: insert_sorted x l'
  end.

Definition sorted (l : list string) : list string :=
  fold_right insert_sorted [] l.

(** [address]: the next receiving address whose public keys are in
    sorted order.  The method calls itself when the candidate's keys are
    not sorted; [depth] is the number of nested calls that the
    interpreter's recursion limit still allows. *)
Fixpoint address (depth : nat) : M world string :=
  match depth with
  | O => raise RecursionError
  | S depth' =>
      w <- get_self ;;
      if negb (ready w) then
        raise (JunctionError (pretty (n w) +:+ " signers required, " +:+
                              pretty (len (signers w)) +:+ " registered"))
      else
        (if address_index w >? export_index w then export_watchonly else ret tt) ;;;
        desc <- descriptor ;;
        w <- get_self ;;
        derived <- wallet_rpc (deriveaddresses desc
                     [address_index w; address_index w + 1]) ;;
        match derived with
        | [] => raise (IndexError "list index out of range")
        | address0 :: _ =>
            update_self (fun w => set_address_index (address_index w + 1) w) ;;;
            ai <- wallet_rpc (getaddressinfo address0) ;;
            if negb (iswatchonly ai) then
              raise (AssertionError "Bitcoin Core gave us non-watch-only address")
            else if negb (bool_decide (pubkeys ai = sorted (pubkeys ai))) then
              address depth'
            else
              save ;;; ret address0
        end
  end.

(** [add_signer] *)
Definition add_signer (name0 fingerprint0 xpub0 derivation_path0 : string)
  : M world unit :=
  w <- get_self ;;
  if ready w then
    raise (JunctionError ("Already have " +:+ pretty (len (signers w)) +:+
             " of " +:+ pretty (n w) +:+ " required signers"))
  else if bool_decide (name0 ∈ map signer_name (signers w)) then
    raise (JunctionError ("Name " +:+ dq +:+ name0 +:+ dq +:+ " already taken"))
  else if bool_decide (fingerprint0 ∈ map fingerprint (signers w)) then
    raise (JunctionError ("Fingerprint " +:+ dq +:+ fingerprint0 +:+ dq +:+
             " already used"))
  else
    update_self (fun w =>
      set_signers (signers w ++
                   [mkSigner name0 fingerprint0 xpub0 derivation_path0]) w) ;;;
    w <- get_self ;;
    (if ready w then export_watchonly else ret tt) ;;;
    save.

(** [create_psbt]: the attribute is first bound to a fresh [PSBT()],
    which [deserialize] then fills; when [deserialize] raises, the
    attribute keeps the (here: empty) object. *)
Definition create_psbt (depth : nat) (recipient : string) (satoshis : Z)
  : M world unit :=
  w <- get_self ;;
  if psbt_truthy (psbt w) then raise (JunctionError "PSBT already present")
  else
    change_address <- address depth ;;
    raw_psbt <- wallet_rpc (walletcreatefundedpsbt
                  [] [(recipient, sat_to_btc satoshis)] 0
                  (mkFundOptions true change_address) true) ;;
    update_self (set_psbt (PsbtObject (mkPSBT EmptyString [] []))) ;;;
    match psbt_deserialize raw_psbt with
    | Raised e => raise e
    | Returned p =>
        update_self (set_psbt (PsbtObject p)) ;;;
        save
    end.

(** [remove_psbt] *)
Definition remove_psbt : M world unit :=
  update_self (set_psbt PsbtNone).

(** [decode_psbt] *)
Definition decode_psbt : M world (option string) :=
  w <- get_self ;;
  match psbt w with
  | PsbtObject p =>
      r <- wallet_rpc (decodepsbt (psbt_serialize p)) ;;
      ret (Some r)
  | _ => ret None
  end.

(** [signing_complete]: [self.m == len(self.psbt.inputs[0].partial_sigs)].
    The attribute lookup fails on [None] and on the empty string, the
    subscript on an empty list of inputs. *)
Definition signing_complete : M world bool :=
  w <- get_self ;;
  match psbt w with
  | PsbtNone =>
      raise (AttributeError "'NoneType' object has no attribute 'inputs'")
  | PsbtEmptyStr =>
      raise (AttributeError "'str' object has no attribute 'inputs'")
  | PsbtObject p =>
      match inputs p with
      | [] => raise (IndexError "list index out of range")
      | input0 :: _ => ret (m w =? Z.of_nat (size (partial_sigs input0)))
      end
  end.

(** [broadcast] *)
Definition broadcast : M world string :=
  w <- get_self ;;
  match psbt w with
  | PsbtNone =>
      raise (AttributeError "'NoneType' object has no attribute 'serialize'")
  | PsbtEmptyStr =>
      raise (AttributeError "'str' object has no attribute 'serialize'")
  | PsbtObject p =>
      let psbt_hex := psbt_serialize p in
      tx_hex <- wallet_rpc (finalizepsbt psbt_hex) ;;
      wallet_rpc (sendrawtransaction tx_hex)
  end.

(** The loop of the fallback of [balances]: the pair
    [(unconfirmed_balance, confirmed_balance)] after each output. *)
Definition count_unspent (acc : amount * amount) (u : unspent amount)
  : amount * amount :=
  let (unconfirmed_balance, confirmed_balance) := acc in
  if confirmations u >? 0 then
    (unconfirmed_balance, amount_add confirmed_balance (u_amount u))
  else
    (amount_add unconfirmed_balance (u_amount u), confirmed_balance).

Definition balances_fallback : M world (amount * amount) :=
  unspent_outputs <- wallet_rpc (listunspent 0 9999999 [] true) ;;
  ret (fold_left count_unspent unspent_outputs (amount_zero, amount_zero)).

(** [balances]: the aggregate query, and the manual count when anything
    in the [try] block raises (the [except:] clause is bare). *)
Definition balances : M world (amount * amount) :=
  try_except
    (balances_answer <- wallet_rpc getbalances ;;
     match watchonly balances_answer with
     | Some section =>
         match untrusted_pending section with
         | None => raise (KeyError "untrusted_pending")
         | Some pending =>
             match trusted section with
             | None => raise (KeyError "trusted")
             | Some confirmed => ret (pending, confirmed)
             end
         end
     | None => ret (amount_zero, amount_zero)
     end)
    (fun _ => Some balances_fallback).

End MultisigWallet.

(** ** Operations and observations *)

(** The instance methods, as the steps of the wallet's state machine. *)
Inductive operation : Type :=
| OpEnsureWatchonly
| OpSave
| OpAddSigner (name0 fingerprint0 xpub0 derivation_path0 : string)
| OpDescriptor
| OpAddress
| OpExportWatchonly
| OpCreatePsbt (recipient : string) (satoshis : Z)
| OpRemovePsbt
| OpDecodePsbt
| OpSigningComplete
| OpBroadcast
| OpBalances.

Section Observations.

Context {amount Node : Type}.
Context `{Ext : Externals amount} `{Core : BitcoinCore amount Node}.

(** Running one operation for its effect; [depth] bounds the nesting of
    [address]. *)
Definition perform (depth : nat) (op : operation) : M (world amount Node) unit :=
  match op with
  | OpEnsureWatchonly => ensure_watchonly
  | OpSave => save
  | OpAddSigner a b c d => add_signer a b c d
  | OpDescriptor => descriptor ;;; ret tt
  | OpAddress => address depth ;;; ret tt
  | OpExportWatchonly => export_watchonly
  | OpCreatePsbt r s => create_psbt depth r s
  | OpRemovePsbt => remove_psbt
  | OpDecodePsbt => decode_psbt ;;; ret tt
  | OpSigningComplete => signing_complete ;;; ret tt
  | OpBroadcast => broadcast ;;; ret tt
  | OpBalances => balances ;;; ret tt
  end.

Definition is_importmulti (r : request amount) : bool :=
  match req_call r with importmulti _ => true | _ => false end.

Definition is_deriveaddresses (r : request amount) : bool :=
  match req_call r with deriveaddresses _ _ => true | _ => false end.

Definition is_getaddressinfo (r : request amount) : bool :=
  match req_call r with getaddressinfo _ => true | _ => false end.

(** The number of [importmulti] requests that the node answered: the
    export cycles that went through. *)
Definition imports_answered (t : list (request amount)) : Z :=
  len (filter (fun r => is_importmulti r && req_answered r = true) t).

(** The number of [importmulti] requests, answered or not. *)
Definition imports_requested (t : list (request amount)) : Z :=
  len (filter (fun r => is_importmulti r = true) t).

(** The requests that move neither index. *)
Definition plain_call (c : rpc_call amount) : bool :=
  match c with
  | getaddressinfo _ | importmulti _ => false
  | _ => true
  end.

(** The number of candidate addresses probed with [getaddressinfo]. *)
Definition probes (t : list (request amount)) : Z :=
  len (filter (fun r => is_getaddressinfo r = true) t).

(** The requests that [w'] has seen and [w] has not. *)
Definition requests_since (w w' : world amount Node) : list (request amount) :=
  drop (length (trace (outside w))) (trace (outside w')).


(** The wallet file holds the wallet as it is in memory. *)
Definition persisted (w : world amount Node) : Prop :=
  disk (outside w) !! full_path (wallet_file_path (self w))
  = Some (to_dict (self w)).

(** [keeps R c]: however [c] ends, by returning or by raising, the
    world it leaves is related by [R] to the world it started in. *)
Definition keeps (R : relation (world amount Node)) {A}
  (c : M (world amount Node) A) : Prop :=
  forall w r w', c w = (r, w') -> R w w'.

(** The bookkeeping that every method respects: the trace only grows,
    [address_index] moves by one per candidate probed with
    [getaddressinfo], and [export_index] by one chunk per answered
    [importmulti]. *)
Definition accounted : relation (world amount Node) :=
  fun w w' =>
    exists t,
      trace (outside w') = trace (outside w) ++ t /\
      address_index (self w') = address_index (self w) + probes t /\
      export_index (self w') =
        export_index (self w) + ADDRESS_CHUNK * imports_answered t.

(** The wallet object is as it was. *)
Definition same_self : relation (world amount Node) :=
  fun w w' => self w' = self w.

(** The wallet object and the wallet files are as they were. *)
Definition untouched : relation (world amount Node) :=
  fun w w' => self w' = self w /\ disk (outside w') = disk (outside w).

(** The name, the two thresholds and the signers are as they were. *)
Definition same_registry : relation (world amount Node) :=
  fun w w' =>
    name (self w') = name (self w) /\ m (self w') = m (self w) /\
    n (self w') = n (self w) /\ signers (self w') = signers (self w).

(** A property of the wallet that holds after if it held before. *)
Definition preserves (P : Wallet -> Prop) : relation (world amount Node) :=
  fun w w' => P (self w) -> P (self w').

(** The signer registry is well formed: no more than [n] signers, no
    name and no fingerprint twice. *)
Definition registry_ok (v : Wallet) : Prop :=
  len (signers v) <= n v /\
  NoDup (map signer_name (signers v)) /\
  NoDup (map fingerprint (signers v)).

(** The allocator is at most one index beyond the exported range. *)
Definition allocator_ok (v : Wallet) : Prop :=
  address_index v <= export_index v + 1.

(** The methods that only ask the node or read the wallet. *)
Definition read_only (op : operation) : bool :=
  match op with
  | OpEnsureWatchonly | OpDescriptor | OpDecodePsbt | OpSigningComplete
  | OpBroadcast | OpBalances => true
  | _ => false
  end.

Definition is_add_signer (op : operation) : bool :=
  match op with OpAddSigner _ _ _ _ => true | _ => false end.

End Observations.

(** ** Readings of the specification, for comparison with the code *)

(** The descriptor format in the specification's words,
    [sh(multi(M, [FINGERPRINT/44'/1'/0']XPUB/0/*, ...))], with the mark of
    a hardened step and the separator left open. *)
Definition spec_entry (hardened : string) (s : Signer) : string :=
  "[" +:+ fingerprint s +:+ "/44" +:+ hardened +:+ "/1" +:+ hardened +:+
  "/0" +:+ hardened +:+ "]" +:+ xpub s +:+ "/0/*".

Fixpoint spec_entries (hardened sep : string) (l : list Signer) : string :=
  match l with
  | [] => EmptyString
  | [s] => spec_entry hardened s
  | s :: l' => spec_entry hardened s +:+ sep +:+ spec_entries hardened sep l'
  end.

Definition spec_descriptor (hardened sep : string) (w : Wallet) : string :=
  "sh(multi(" +:+ pretty (m w) +:+ sep +:+
  spec_entries hardened sep (signers w) +:+ "))".

(** The balance fallback in the specification's words: zero
    confirmations count as unconfirmed, every other count as
    confirmed. *)
Definition spec_count_unspent {amount} `{Externals amount}
  (acc : amount * amount) (u : unspent amount) : amount * amount :=
  let (unconfirmed_balance, confirmed_balance) := acc in
  if confirmations u =? 0 then
    (amount_add unconfirmed_balance (u_amount u), confirmed_balance)
  else
    (unconfirmed_balance, amount_add confirmed_balance (u_amount u)).

(** The indices of a [[begin, end]] range argument.  The end bound
    counts: [export_index] is set to the end bound of the range just
    imported and is documented as the highest exported address index,
    and [address] hands out the address at [export_index] without
    another export. *)
Definition in_range (range : list Z) (i : Z) : bool :=
  match range with
  | [range_begin; range_end] => (range_begin <=? i) && (i <=? range_end)
  | _ => false
  end.

Definition range_size (range : list Z) : Z :=
  match range with
  | [range_begin; range_end] => Z.max 0 (range_end - range_begin + 1)
  | _ => 0
  end.

(** ** A sample node, sample signers and sample worlds

    A small scripted node on which the methods can be run: it answers
    every request unless it is [unreachable], derives the address of
    index [i] as the text [addr] followed by [i], and reports the public
    keys of the addresses listed in [unsorted_at] out of order. *)

Module Sample.

Record node_state : Type := mkNode {
  unreachable : bool;
  loaded : list string;
  unsorted_at : list Z;
  aggregate_balances : bool;
  utxos : list (unspent Z)
}.

Definition address_of (i : Z) : string := "addr" +:+ pretty i.

(** The indices from [lo] on, [count] of them. *)
Fixpoint indices (lo : Z) (count : nat) : list Z :=
  match count with
  | O => []
  | S count' => lo :: indices (lo + 1) count'
  end.

Definition derive (range : list Z) : list string :=
  match range with
  | [range_begin; range_end] =>
      map address_of (indices range_begin (Z.to_nat (range_end - range_begin + 1)))
  | _ => []
  end.

Definition answer (ep : endpoint) (c : rpc_call Z) (s : node_state)
  : outcome (rpc_answer c) * node_state :=
  if unreachable s then (Raised (OtherException "Connection refused"), s)
  else
    match c return outcome (rpc_answer c) * node_state with
    | listwallets => (Returned (loaded s), s)
    | loadwallet _ => (Raised (JSONRPCException "Wallet file not found"), s)
    | createwallet w _ =>
        (Returned tt,
         mkNode (unreachable s) (w :: loaded s) (unsorted_at s)
                (aggregate_balances s) (utxos s))
    | getdescriptorinfo d => (Returned (d +:+ "#checksum"), s)
    | deriveaddresses _ range => (Returned (derive range), s)
    | getaddressinfo a =>
        (Returned
           (mkAddressInfo true
              (if bool_decide (a ∈ map address_of (unsorted_at s))
               then ["03bb"; "02aa"] else ["02aa"; "03bb"])), s)
    | importmulti _ => (Returned tt, s)
    | walletcreatefundedpsbt _ _ _ _ _ => (Returned "cHNidP8BAFICAAAA", s)
    | decodepsbt t => (Returned ("decoded " +:+ t), s)
    | finalizepsbt t => (Returned ("hex " +:+ t), s)
    | sendrawtransaction _ => (Returned "txid", s)
    | getbalances =>
        if aggregate_balances s
        then (Returned (mkBalancesInfo None), s)
        else (Raised (JSONRPCException "Method not found"), s)
    | listunspent _ _ _ _ => (Returned (utxos s), s)
    end.

#[export] Instance sample_core : BitcoinCore Z node_state :=
  {| node_call := answer |}.

(** Amounts counted in whole units; a PSBT text is kept as the
    transaction of a one-input PSBT without signatures. *)
#[export] Instance sample_externals : Externals Z :=
  {| amount_zero := 0;
     amount_add := Z.add;
     sat_to_btc := fun satoshis => satoshis;
     DATADIR := "/data";
     psbt_serialize := psbt_tx;
     psbt_deserialize := fun text => Returned (mkPSBT text [mkInput ∅] []) |}.

Definition alice : Signer := mkSigner "alice" "aaaa1111" "tpubA" "m/44h/1h/0h".
Definition bob : Signer := mkSigner "bob" "bbbb2222" "tpubB" "m/44h/1h/0h".

Definition quiet_node : node_state := mkNode false [] [] false [].

Definition fresh_env (s : node_state) : env Z node_state :=
  mkEnv ∅ s [] 1000000.

(** A 2-of-2 wallet with both signers, nothing exported yet. *)
Definition wallet_2of2 : Wallet :=
  mkWallet "shared" 2 2 [alice; bob] PsbtNone 0 0.

(** A 2-of-2 wallet that still waits for its second signer. *)
Definition wallet_waiting : Wallet :=
  mkWallet "shared" 2 2 [alice] PsbtNone 0 0.

Definition world_of (w : Wallet) (s : node_state) : world Z node_state :=
  mkWorld w (fresh_env s).

(** A node on which the candidate of index 0 has its keys out of
    order. *)
Definition skipping_node : node_state := mkNode false [] [0] false [].

(** A node that does not answer. *)
Definition dead_node : node_state := mkNode true [] [] false [].



(** The 2-of-2 wallet one address beyond its exported range. *)
Definition wallet_ahead : Wallet :=
  mkWallet "shared" 2 2 [alice; bob] PsbtNone 101 100.

(** A PSBT whose first input carries the given signatures. *)
Definition psbt_with (sigs : gmap string string) : PSBT :=
  mkPSBT "cHNidP8BAFICAAAA" [mkInput sigs; mkInput ∅] ["recipient"; "change"].

Definition no_signature : gmap string string := ∅.
Definition one_signature : gmap string string := {["02aa" := "sigA"]}.
Definition two_signatures : gmap string string :=
  <["03bb" := "sigB"]> one_signature.

Definition wallet_signing (sigs : gmap string string) : Wallet :=
  mkWallet "shared" 2 2 [alice; bob] (PsbtObject (psbt_with sigs)) 1 100.

(** The world after the 2-of-2 wallet has created a PSBT. *)
Definition world_with_psbt : world Z node_state :=
  snd (create_psbt 5 "recipient" 1000 (world_of wallet_2of2 quiet_node)).


(** A node that already lists the watch-only wallet of the sample
    wallets. *)
Definition loaded_node : node_state := mkNode false ["shared"] [] false [].

(** A node with the aggregate balance query. *)
Definition aggregate_node : node_state := mkNode false [] [] true [].

(** The helpers of the sample, with a [deserialize] that rejects every
    text. *)
Definition strict_externals : Externals Z :=
  {| amount_zero := 0;
     amount_add := Z.add;
     sat_to_btc := fun satoshis => satoshis;
     DATADIR := "/data";
     psbt_serialize := psbt_tx;
     psbt_deserialize := fun _ => Raised (OtherException "Invalid PSBT") |}.

(** The environment after a 2-of-3 wallet named [shared] has been
    created. *)
Definition env_with_file : env Z node_state :=
  snd (create "shared" 2 3 (fresh_env quiet_node)).

End Sample.

(** * Properties *)

(** ** Reasoning about the monad *)

Lemma bind_inv {S A B} (c : M S A) (k : A -> M S B) s r s' :
  bind c k s = (r, s') ->
  (exists a s1, c s = (Returned a, s1) /\ k a s1 = (r, s')) \/
  (exists e, c s = (Raised e, s') /\ r = Raised e).
Proof.
  unfold bind. destruct (c s) as [[a|e] s1]; intros H.
  - left. exists a, s1. split; [reflexivity | exact H].
  - right. exists e. inversion H; subst. split; reflexivity.
Qed.

Lemma bind_returned {S A B} (c : M S A) (k : A -> M S B) s b s' :
  bind c k s = (Returned b, s') ->
  exists a s1, c s = (Returned a, s1) /\ k a s1 = (Returned b, s').
Proof.
  intros H. destruct (bind_inv _ _ _ _ _ H) as [H1 | [e [_ H1]]];
    [exact H1 | discriminate H1].
Qed.

(** [bind_cases H as a w E]: the first action of [H] returned [a] in
    world [w], or raised. *)
Tactic Notation "bind_cases" hyp(H) "as" ident(a) ident(w) ident(E) :=
  apply bind_inv in H;
  destruct H as [(a & w & E & H) | (a & E & H)].

(** [bind_ok H as a w E]: [H] returned, so its first action did. *)
Tactic Notation "bind_ok" hyp(H) "as" ident(a) ident(w) ident(E) :=
  apply bind_returned in H; destruct H as (a & w & E & H).

Section Keeps.

Context {amount Node : Type}.
Context `{Ext : Externals amount} `{Core : BitcoinCore amount Node}.
Local Abbreviation world := (world amount Node).
Context (R : relation world) `{!PreOrder R}.

Lemma keeps_ret {A} (a : A) : keeps R (ret a).
Proof. intros w r w' H. inversion H; subst. reflexivity. Qed.

Lemma keeps_raise {A} (e : exn) : keeps R (@raise world A e).
Proof. intros w r w' H. inversion H; subst. reflexivity. Qed.

Lemma keeps_get_self : keeps R get_self.
Proof. intros w r w' H. inversion H; subst. reflexivity. Qed.

Lemma keeps_time_now : keeps R time_now.
Proof. intros w r w' H. inversion H; subst. reflexivity. Qed.

Lemma keeps_bind {A B} (c : M world A) (k : A -> M world B) :
  keeps R c -> (forall a, keeps R (k a)) -> keeps R (bind c k).
Proof.
  intros Hc Hk w r w' H.
  bind_cases H as a w1 E.
  - transitivity w1; [eapply Hc | eapply Hk]; eassumption.
  - eapply Hc; eassumption.
Qed.

Lemma keeps_try_except {A} (c : M world A) (h : exn -> option (M world A)) :
  keeps R c -> (forall e c', h e = Some c' -> keeps R c') ->
  keeps R (try_except c h).
Proof.
  intros Hc Hh w r w' H. unfold try_except in H.
  destruct (c w) as [[a|e] w1] eqn:E.
  - inversion H; subst. eapply Hc; eassumption.
  - destruct (h e) as [c'|] eqn:E'.
    + transitivity w1; [eapply Hc | eapply Hh]; eassumption.
    + inversion H; subst. eapply Hc; eassumption.
Qed.

End Keeps.

(** ** The wallet's bookkeeping *)

Section Bookkeeping.

Context {amount Node : Type}.
Context `{Ext : Externals amount} `{Core : BitcoinCore amount Node}.
Local Abbreviation world := (world amount Node).
Local Abbreviation acct := (@accounted amount Node).

Lemma imports_answered_app (t1 t2 : list (request amount)) :
  imports_answered (t1 ++ t2) = imports_answered t1 + imports_answered t2.
Proof.
  unfold imports_answered, len. rewrite filter_app, length_app. lia.
Qed.

Lemma probes_app (t1 t2 : list (request amount)) :
  probes (t1 ++ t2) = probes t1 + probes t2.
Proof.
  unfold probes, len. rewrite filter_app, length_app. lia.
Qed.

Lemma accounted_preorder : PreOrder acct.
Proof.
  split.
  - intros w. exists []. rewrite app_nil_r.
    unfold probes, imports_answered, len. simpl. split; [reflexivity | lia].
  - intros a b c (t1 & Ht1 & Ha1 & He1) (t2 & Ht2 & Ha2 & He2).
    exists (t1 ++ t2). rewrite probes_app, imports_answered_app.
    split; [ rewrite Ht2, Ht1, app_assoc; reflexivity | lia ].
Qed.

#[local] Existing Instance accounted_preorder.

Lemma requests_since_app (w w' : world) t :
  trace (outside w') = trace (outside w) ++ t -> requests_since w w' = t.
Proof.
  intros H. unfold requests_since. rewrite H. apply drop_app_length.
Qed.

Lemma accounted_trace (w w' : world) :
  acct w w' -> exists t, trace (outside w') = trace (outside w) ++ t.
Proof. intros (t & Ht & _). exists t. exact Ht. Qed.



(** *** What the primitive actions do *)

(** A request on the wallet's endpoint: the wallet and the files stay,
    the node moves on, the trace gets the request. *)
Lemma wallet_rpc_inv (c : rpc_call amount) (w : world) r w' :
  wallet_rpc c w = (r, w') ->
  self w' = self w /\
  disk (outside w') = disk (outside w) /\
  now (outside w') = now (outside w) /\
  trace (outside w') =
    trace (outside w) ++ [mkRequest (Some (name (self w))) c (returned r)] /\
  node_call (Some (name (self w))) c (node (outside w)) = (r, node (outside w')).
Proof.
  unfold wallet_rpc, bind, get_self, in_env, rpc.
  destruct (node_call (Some (name (self w))) c (node (outside w))) as [r0 nd].
  intros H. inversion H; subst. simpl. auto.
Qed.

Lemma wallet_rpc_eq (c : rpc_call amount) (w : world) :
  wallet_rpc c w =
  let (r, node') := node_call (Some (name (self w))) c (node (outside w)) in
  (r, mkWorld (self w)
        (mkEnv (disk (outside w)) node'
           (trace (outside w) ++
            [mkRequest (Some (name (self w))) c (returned r)])
           (now (outside w)))).
Proof.
  unfold wallet_rpc, bind, get_self, in_env, rpc.
  destruct (node_call (Some (name (self w))) c (node (outside w))).
  reflexivity.
Qed.

Lemma default_rpc_inv (c : rpc_call amount) (w : world) r w' :
  default_rpc c w = (r, w') ->
  self w' = self w /\
  disk (outside w') = disk (outside w) /\
  now (outside w') = now (outside w) /\
  trace (outside w') = trace (outside w) ++ [mkRequest None c (returned r)].
Proof.
  unfold default_rpc, in_env, rpc.
  destruct (node_call None c (node (outside w))) as [r0 nd].
  intros H. inversion H; subst. simpl. auto.
Qed.

Lemma save_eq (w : world) :
  save w =
  (Returned tt,
   mkWorld (self w)
     (set_disk (<[full_path (wallet_file_path (self w)) := to_dict (self w)]>
                  (disk (outside w))) (outside w))).
Proof. reflexivity. Qed.

Lemma save_persisted (w : world) r w' :
  save w = (r, w') -> r = Returned tt /\ self w' = self w /\ persisted w' /\
  trace (outside w') = trace (outside w).
Proof.
  rewrite save_eq. intros H. inversion H; subst.
  unfold persisted. simpl. rewrite lookup_insert_eq. auto.
Qed.

Lemma descriptor_inv (w : world) r w' :
  descriptor w = (r, w') ->
  self w' = self w /\
  disk (outside w') = disk (outside w) /\
  now (outside w') = now (outside w) /\
  trace (outside w') =
    trace (outside w) ++
    [mkRequest (Some (name (self w)))
       (getdescriptorinfo (raw_descriptor (self w))) (returned r)].
Proof.
  unfold descriptor. intros H.
  bind_cases H as a w1 E; [ | discriminate E ].
  inversion E; subst.
  destruct (wallet_rpc_inv (getdescriptorinfo _) _ _ _ H) as (? & ? & ? & ? & _).
  auto.
Qed.

(** One export cycle: either both requests are answered, the index
    moves by one chunk and the wallet is saved, or a request raises and
    the wallet is as it was. *)
Lemma export_watchonly_inv (w : world) r w' :
  export_watchonly w = (r, w') ->
  (r = Returned tt /\
   self w' = set_export_index (export_index (self w) + ADDRESS_CHUNK) (self w) /\
   persisted w' /\
   exists desc,
     trace (outside w') = trace (outside w) ++
       [mkRequest (Some (name (self w)))
          (getdescriptorinfo (raw_descriptor (self w))) true;
        mkRequest (Some (name (self w)))
          (importmulti
             [mkImport desc (now (outside w) - 60 * 60 * 24)
                [export_index (self w); export_index (self w) + ADDRESS_CHUNK]
                true false false]) true]) \/
  (exists x, r = Raised x /\ self w' = self w /\
     exists t, trace (outside w') = trace (outside w) ++ t /\
               imports_answered t = 0 /\ probes t = 0 /\
               existsb is_deriveaddresses t = false).
Proof.
  unfold export_watchonly. intros H.
  bind_cases H as v w0 E; [ | discriminate E].
  inversion E; subst; clear E.
  bind_cases H as desc w1 E1.
  - destruct (descriptor_inv _ _ _ E1) as (Hs1 & Hd1 & Hn1 & Ht1).
    bind_cases H as t w2 E2; [ | discriminate E2].
    inversion E2; subst; clear E2.
    bind_cases H as v3 w3 E3; [ | discriminate E3].
    inversion E3; subst; clear E3.
    bind_cases H as u4 w4 E4.
    + destruct (wallet_rpc_inv (importmulti _) _ _ _ E4)
        as (Hs2 & Hd2 & Hn2 & Ht2 & _).
      bind_cases H as u5 w5 E5; [ | discriminate E5].
      inversion E5; subst; clear E5.
      destruct (save_persisted _ _ _ H) as (-> & Hs3 & Hp & Ht3).
      left. split; [reflexivity|]. split.
      { rewrite Hs3. simpl. rewrite Hs2, Hs1. reflexivity. }
      split; [exact Hp|].
      eexists. rewrite Ht3. simpl. rewrite Ht2, Ht1, Hs1, Hn1. simpl.
      rewrite <- app_assoc. reflexivity.
    + subst r. right. eexists. split; [reflexivity|].
      destruct (wallet_rpc_inv (importmulti _) _ _ _ E4)
        as (Hs2 & Hd2 & Hn2 & Ht2 & _).
      split; [congruence|].
      eexists. split.
      { rewrite Ht2, Ht1, <- app_assoc. reflexivity. }
      repeat split; reflexivity.
  - subst r. right. eexists. split; [reflexivity|].
    destruct (descriptor_inv _ _ _ E1) as (Hs1 & Hd1 & Hn1 & Ht1).
    split; [exact Hs1|]. eexists. split; [exact Ht1|].
    repeat split; reflexivity.
Qed.

(** *** Every method keeps the books *)

Lemma accounted_one (w w' : world) (q : request amount) :
  trace (outside w') = trace (outside w) ++ [q] ->
  address_index (self w') = address_index (self w) + probes [q] ->
  export_index (self w') =
    export_index (self w) + ADDRESS_CHUNK * imports_answered [q] ->
  acct w w'.
Proof. intros. exists [q]. auto. Qed.

Lemma keeps_wallet_rpc (c : rpc_call amount) :
  plain_call c = true -> keeps acct (wallet_rpc c).
Proof.
  intros Hc w r w' H.
  destruct (wallet_rpc_inv _ _ _ _ H) as (Hs & _ & _ & Ht & _).
  eapply accounted_one; [exact Ht | | ]; rewrite Hs;
    destruct c; try discriminate Hc;
    unfold probes, imports_answered, len; simpl; lia.
Qed.

Lemma keeps_default_rpc (c : rpc_call amount) :
  plain_call c = true -> keeps acct (default_rpc c).
Proof.
  intros Hc w r w' H.
  destruct (default_rpc_inv _ _ _ _ H) as (Hs & _ & _ & Ht).
  eapply accounted_one; [exact Ht | | ]; rewrite Hs;
    destruct c; try discriminate Hc;
    unfold probes, imports_answered, len; simpl; lia.
Qed.

Lemma keeps_update_self (f : Wallet -> Wallet) :
  (forall v, address_index (f v) = address_index v) ->
  (forall v, export_index (f v) = export_index v) ->
  keeps acct (update_self f).
Proof.
  intros Ha He w r w' H. inversion H; subst. exists []. simpl.
  rewrite app_nil_r, Ha, He. unfold probes, imports_answered, len. simpl.
  split; [reflexivity | lia].
Qed.

Lemma keeps_save : keeps acct save.
Proof.
  intros w r w' H. rewrite save_eq in H. inversion H; subst.
  exists []. simpl. rewrite app_nil_r.
  unfold probes, imports_answered, len. simpl. split; [reflexivity | lia].
Qed.

Lemma keeps_export_watchonly : keeps acct export_watchonly.
Proof.
  intros w r w' H.
  destruct (export_watchonly_inv _ _ _ H)
    as [(_ & Hs & _ & desc & Ht) | (x & _ & Hs & t & Ht & Hi & Hp & _)].
  - eexists. split; [exact Ht|]. rewrite Hs.
    unfold probes, imports_answered, len. simpl. lia.
  - exists t. split; [exact Ht|]. rewrite Hs, Hi, Hp. lia.
Qed.

Lemma keeps_descriptor : keeps acct descriptor.
Proof.
  intros w r w' H. destruct (descriptor_inv _ _ _ H) as (Hs & _ & _ & Ht).
  eapply accounted_one; [exact Ht | | ]; rewrite Hs;
    unfold probes, imports_answered, len; simpl; lia.
Qed.

(** The probe of one candidate: the index moves on and the candidate
    is looked up, whatever follows. *)
Lemma keeps_probe {A} (a : string) (k : address_info -> M world A) :
  (forall ai, keeps acct (k ai)) ->
  keeps acct
    (update_self (fun w => set_address_index (address_index w + 1) w) ;;;
     ai <- wallet_rpc (getaddressinfo a) ;; k ai).
Proof.
  intros Hk w r w' H.
  bind_cases H as u w0 E; [ | discriminate E ].
  inversion E; subst; clear E.
  bind_cases H as ai w1 E1.
  - transitivity w1; [ | eapply Hk; eassumption ].
    destruct (wallet_rpc_inv (getaddressinfo _) _ _ _ E1)
      as (Hs & _ & _ & Ht & _).
    eexists. split; [exact Ht|]. rewrite Hs.
    unfold probes, imports_answered, len. simpl. lia.
  - destruct (wallet_rpc_inv (getaddressinfo _) _ _ _ E1)
      as (Hs & _ & _ & Ht & _).
    eexists. split; [exact Ht|]. rewrite Hs.
    unfold probes, imports_answered, len. simpl. lia.
Qed.

(** Follows the shape of a method body down to its primitive actions. *)
Ltac keeps_auto :=
  repeat match goal with
  | |- PreOrder _ => typeclasses eauto
  | H : keeps _ ?c |- keeps _ ?c => exact H
  | |- keeps _ (bind (update_self _)
                  (fun _ => bind (wallet_rpc (getaddressinfo _)) _)) =>
      apply keeps_probe; intros ?
  | |- keeps _ (bind _ _) => apply keeps_bind; [ | | intros ? ]
  | |- keeps _ (ret _) => apply keeps_ret
  | |- keeps _ (raise _) => apply keeps_raise
  | |- keeps _ get_self => apply keeps_get_self
  | |- keeps _ time_now => apply keeps_time_now
  | |- keeps _ save => apply keeps_save
  | |- keeps _ descriptor => apply keeps_descriptor
  | |- keeps _ export_watchonly => apply keeps_export_watchonly
  | |- keeps _ (wallet_rpc ?c) => apply (keeps_wallet_rpc c); reflexivity
  | |- keeps _ (default_rpc ?c) => apply (keeps_default_rpc c); reflexivity
  | |- keeps _ (update_self _) =>
      apply keeps_update_self; intros; reflexivity
  | |- keeps _ (try_except _ _) =>
      apply keeps_try_except; [ | | intros ? ? ? ]
  | H : Some _ = Some _ |- _ => inversion H; subst; clear H
  | H : None = Some _ |- _ => discriminate H
  | H : (if ?b then _ else _) = Some _ |- _ => destruct b
  | |- keeps _ (if ?b then _ else _) => destruct b
  | |- keeps _ (match ?x with _ => _ end) => destruct x
  end.

(** [by_keeps H as K]: the action of [H] keeps the books, hence [K],
    the books between the two worlds of [H]. *)
Tactic Notation "by_keeps" hyp(H) "as" ident(K) :=
  match type of H with
  | ?c ?w = (_, ?w') =>
      assert (K : keeps acct c) by keeps_auto;
      specialize (K _ _ _ H)
  end.

Lemma keeps_address depth : keeps acct (address depth).
Proof. induction depth as [|d IH]; simpl; keeps_auto. Qed.

Lemma keeps_perform depth op : keeps acct (perform depth op).
Proof.
  pose proof (keeps_address depth) as Ha.
  destruct op; simpl;
    unfold ensure_watchonly, add_signer, create_psbt, remove_psbt, decode_psbt,
      signing_complete, broadcast, balances, balances_fallback;
    keeps_auto.
Qed.



(** ** Address allocation *)


(** ** Watch-only export *)


(** C3, as amended.  An export cycle that goes through has sent one
    [importmulti] request whose range argument is the two-element list
    [[export_index, export_index + 100]], backdated by 24 hours, outside
    the keypool and not internal.  The end bound is the wallet's new
    [export_index]; with both bounds counted the range has 101 indices
    and contains [export_index + 100]. *)
Theorem export_range_bounds (w : world) w' :
  export_watchonly w = (Returned tt, w') ->
  exists desc range,
    requests_since w w' =
      [mkRequest (Some (name (self w)))
         (getdescriptorinfo (raw_descriptor (self w))) true;
       mkRequest (Some (name (self w)))
         (importmulti
            [mkImport desc (now (outside w) - 86400) range true false false])
         true] /\
    range = [export_index (self w); export_index (self w) + 100] /\
    last range = Some (export_index (self w')) /\
    in_range range (export_index (self w) + 100) = true /\
    range_size range = 101.
Proof.
  intros H.
  destruct (export_watchonly_inv _ _ _ H)
    as [(_ & Hs & _ & desc & Ht) | (x & Hx & _)]; [ | discriminate Hx ].
  exists desc, [export_index (self w); export_index (self w) + 100].
  split; [ exact (requests_since_app _ _ _ Ht) | ].
  split; [ reflexivity | ].
  split; [ rewrite Hs; reflexivity | ].
  split.
  - unfold in_range. apply andb_true_intro. split; apply Z.leb_le; lia.
  - unfold range_size. lia.
Qed.

(** ** Persistence *)

Lemma address_persisted depth (w : world) a w' :
  address depth w = (Returned a, w') -> persisted w'.
Proof.
  revert w. induction depth as [|d IH]; intros w H; simpl in H.
  - discriminate H.
  - bind_ok H as v w0 E.
    destruct (negb (ready v)); [discriminate H|].
    bind_ok H as u1 w1 E1. bind_ok H as desc w2 E2.
    bind_ok H as v3 w3 E3. bind_ok H as derived w4 E4.
    destruct derived as [|address0 rest]; [discriminate H|].
    bind_ok H as u5 w5 E5. bind_ok H as ai w6 E6.
    destruct (negb (iswatchonly ai)); [discriminate H|].
    destruct (negb (bool_decide (pubkeys ai = sorted (pubkeys ai)))).
    + eapply IH. exact H.
    + bind_ok H as u7 w7 E7. inversion H; subst.
      apply (save_persisted _ _ _ E7).
Qed.

(** Every method that changes the wallet and saves it leaves the
    wallet file equal to the wallet in memory. *)
Lemma mutators_persist :
  (forall a b c d (w : world) w',
      add_signer a b c d w = (Returned tt, w') -> persisted w') /\
  (forall (w : world) w',
      export_watchonly w = (Returned tt, w') -> persisted w') /\
  (forall depth (w : world) a w',
      address depth w = (Returned a, w') -> persisted w') /\
  (forall depth recipient satoshis (w : world) w',
      create_psbt depth recipient satoshis w = (Returned tt, w') ->
      persisted w').
Proof.
  repeat split.
  - intros a b c d w w' H. unfold add_signer in H.
    bind_ok H as v w0 E.
    destruct (ready v); [discriminate H|].
    destruct (bool_decide _); [discriminate H|].
    destruct (bool_decide _); [discriminate H|].
    bind_ok H as u1 w1 E1. bind_ok H as v2 w2 E2. bind_ok H as u3 w3 E3.
    apply (save_persisted _ _ _ H).
  - intros w w' H.
    destruct (export_watchonly_inv _ _ _ H)
      as [(_ & _ & Hp & _) | (x & Hx & _)]; [exact Hp | discriminate Hx].
  - exact address_persisted.
  - intros depth recipient satoshis w w' H. unfold create_psbt in H.
    bind_ok H as v w0 E.
    destruct (psbt_truthy (psbt v)); [discriminate H|].
    bind_ok H as change w1 E1. bind_ok H as raw w2 E2.
    bind_ok H as u3 w3 E3.
    destruct (psbt_deserialize raw); [ | discriminate H ].
    bind_ok H as u4 w4 E4.
    apply (save_persisted _ _ _ H).
Qed.

(** [remove_psbt] changes the wallet in memory and does not touch the
    wallet file: a file that held a PSBT still holds it. *)
Lemma remove_psbt_stale (w : world) p :
  persisted w ->
  psbt (self w) = PsbtObject p ->
  psbt_serialize p <> EmptyString ->
  exists w',
    remove_psbt w = (Returned tt, w') /\
    psbt (self w') = PsbtNone /\
    disk (outside w') = disk (outside w) /\
    ~ persisted w'.
Proof.
  intros Hp Hpsbt Hne. eexists. split; [reflexivity|].
  split; [reflexivity|]. split; [reflexivity|].
  unfold persisted in *. simpl.
  change (wallet_file_path (set_psbt PsbtNone (self w)))
    with (wallet_file_path (self w)).
  rewrite Hp. intros Heq. inversion Heq as [Hd].
  rewrite Hpsbt in Hd. exact (Hne Hd).
Qed.

(** ** Descriptor *)

(** C5, as amended.  [descriptor] does not look at readiness: on any
    wallet, ready or not, it sends the string built from the signers
    registered so far and its outcome is the node's.  The readiness
    check is made by [address], which raises a [JunctionError] on a
    wallet that is not ready, before any request. *)
Theorem descriptor_no_ready_check :
  (forall w : world,
      fst (descriptor w) =
      fst (node_call (Some (name (self w)))
             (getdescriptorinfo (raw_descriptor (self w)))
             (node (outside w)))) /\
  (forall d (w : world),
      ready (self w) = false ->
      address (S d) w =
        (Raised (JunctionError
           (pretty (n (self w)) +:+ " signers required, " +:+
            pretty (len (signers (self w))) +:+ " registered")), w)).
Proof.
  split.
  - intros w. unfold descriptor, wallet_rpc, bind, get_self, in_env, rpc.
    simpl.
    destruct (node_call (Some (name (self w)))
                (getdescriptorinfo (raw_descriptor (self w)))
                (node (outside w))) as [r nd].
    reflexivity.
  - intros d w Hr. simpl. unfold bind, get_self. rewrite Hr. reflexivity.
Qed.

Lemma concat_entries (l : list Signer) :
  String.concat "," (map xpub_entry l) = spec_entries "h" "," l.
Proof.
  induction l as [|s l IH]; [reflexivity|].
  destruct l as [|s' l']; [reflexivity|].
  change (String.concat "," (map xpub_entry (s :: s' :: l')))
    with (xpub_entry s +:+ "," +:+ String.concat "," (map xpub_entry (s' :: l'))).
  rewrite IH. reflexivity.
Qed.

(** C7, as amended.  The string that [descriptor] sends to the node is
    [sh(multi(m,[fp/44h/1h/0h]xpub/0/*,...))]: one entry per signer in
    registration order, hardened steps marked with the letter h, a
    comma and no blank between the entries. *)
Theorem raw_descriptor_format :
  (forall v : Wallet, raw_descriptor v = spec_descriptor "h" "," v) /\
  (forall (w : world) r w',
      descriptor w = (r, w') ->
      requests_since w w' =
        [mkRequest (Some (name (self w)))
           (getdescriptorinfo (spec_descriptor "h" "," (self w)))
           (returned r)]).
Proof.
  assert (Hraw : forall v : Wallet, raw_descriptor v = spec_descriptor "h" "," v).
  { intros v. unfold raw_descriptor, spec_descriptor.
    rewrite concat_entries. reflexivity. }
  split; [exact Hraw|].
  intros w r w' H. destruct (descriptor_inv _ _ _ H) as (_ & _ & _ & Ht).
  rewrite <- Hraw. exact (requests_since_app _ _ _ Ht).
Qed.

(** ** Wallet creation *)

Lemma ensure_watchonly_self (w : world) r w' :
  ensure_watchonly w = (r, w') ->
  self w' = self w /\ disk (outside w') = disk (outside w).
Proof.
  unfold ensure_watchonly, try_except, bind, default_rpc, in_env, rpc,
    get_self, ret, raise.
  simpl.
  repeat match goal with
         | |- context [node_call ?ep ?c ?nd] =>
             destruct (node_call ep c nd) as [[?|?] ?]; simpl
         | |- context [if ?b then _ else _] => destruct b; simpl
         end;
    intros H; inversion H; subst; simpl; auto.
Qed.

(** [create] once the three checks have passed and no file is in
    the way: the watch-only node wallet, then the first save. *)
Lemma create_in_bounds (name0 : string) (m0 n0 : Z) (e : env amount Node) :
  m0 <= n0 -> 1 <= m0 -> n0 <= 5 ->
  disk e !! full_path ("wallets/" +:+ name0 +:+ ".json") = None ->
  create name0 m0 n0 e =
    match ensure_watchonly (mkWorld (mkWallet name0 m0 n0 [] PsbtNone 0 0) e) with
    | (Returned _, w1) =>
        (Returned (self w1),
         set_disk (<[full_path (wallet_file_path (self w1)) := to_dict (self w1)]>
                     (disk (outside w1))) (outside w1))
    | (Raised x, w1) => (Raised x, outside w1)
    end.
Proof.
  intros Hmn Hm Hn Hfile. unfold create.
  destruct (Z.gtb_spec m0 n0); [lia|].
  destruct (Z.ltb_spec m0 1); [lia|].
  destruct (Z.gtb_spec n0 5); [lia|].
  unfold bind, ensure_datadir, ret, os_path_exists, on_wallet.
  rewrite Hfile.
  rewrite bool_decide_eq_false_2 by (intros [x Hx]; discriminate Hx).
  destruct (ensure_watchonly (mkWorld (mkWallet name0 m0 n0 [] PsbtNone 0 0) e))
    as [[[]|x] w1]; reflexivity.
Qed.

(** C6.  With no wallet file of that name: a violated bound makes
    [create] raise a [JunctionError] that names the first bound found
    violated, and nothing is written or requested; a creation that
    returns has [1 <= m <= n <= 5] and has written the file of the new
    wallet; and with [1 <= m <= n <= 5], creation returns the new wallet
    as soon as the node lets [ensure_watchonly] through. *)
Theorem create_bounds (name0 : string) (m0 n0 : Z) (e : env amount Node) :
  disk e !! full_path ("wallets/" +:+ name0 +:+ ".json") = None ->
  (m0 > n0 ->
   create name0 m0 n0 e =
     (Raised (JunctionError (dq +:+ "m" +:+ dq +:+ " (" +:+ pretty m0 +:+
        ") must be no larger than " +:+ dq +:+ "n" +:+ dq +:+
        " (" +:+ pretty n0 +:+ ")")), e)) /\
  (m0 <= n0 -> m0 < 1 ->
   create name0 m0 n0 e =
     (Raised (JunctionError (dq +:+ "m" +:+ dq +:+ " (" +:+ pretty m0 +:+
        ") must be larger than 0")), e)) /\
  (1 <= m0 <= n0 -> n0 > 5 ->
   create name0 m0 n0 e =
     (Raised (JunctionError (dq +:+ "n" +:+ dq +:+ " (" +:+ pretty n0 +:+
        ") cannot exceed 5")), e)) /\
  (forall v e',
      create name0 m0 n0 e = (Returned v, e') ->
      1 <= m0 <= n0 /\ n0 <= 5 /\
      v = mkWallet name0 m0 n0 [] PsbtNone 0 0 /\
      disk e' !! full_path ("wallets/" +:+ name0 +:+ ".json")
        = Some (to_dict v)) /\
  (1 <= m0 <= n0 -> n0 <= 5 ->
   forall w1,
     ensure_watchonly (mkWorld (mkWallet name0 m0 n0 [] PsbtNone 0 0) e)
       = (Returned tt, w1) ->
     fst (create name0 m0 n0 e)
       = Returned (mkWallet name0 m0 n0 [] PsbtNone 0 0)).
Proof.
  intros Hfile.
  destruct (Z.gtb_spec m0 n0) as [Hmn|Hmn];
    [ | destruct (Z.ltb_spec m0 1) as [Hm|Hm];
        [ | destruct (Z.gtb_spec n0 5) as [Hn|Hn] ] ].
  - unfold create. destruct (Z.gtb_spec m0 n0); [ | lia ].
    repeat split; try reflexivity; intros; try lia; discriminate.
  - unfold create. destruct (Z.gtb_spec m0 n0); [ lia | ].
    destruct (Z.ltb_spec m0 1); [ | lia ].
    repeat split; try reflexivity; intros; try lia; discriminate.
  - unfold create. destruct (Z.gtb_spec m0 n0); [ lia | ].
    destruct (Z.ltb_spec m0 1); [ lia | ].
    destruct (Z.gtb_spec n0 5); [ | lia ].
    repeat split; try reflexivity; intros; try lia; discriminate.
  - rewrite (create_in_bounds _ _ _ _ Hmn Hm Hn Hfile).
    split; [lia|]. split; [lia|]. split; [lia|].
    destruct (ensure_watchonly (mkWorld (mkWallet name0 m0 n0 [] PsbtNone 0 0) e))
      as [[[]|x] w1] eqn:Ew.
    + destruct (ensure_watchonly_self _ _ _ Ew) as (Hs & Hd).
      simpl in Hs, Hd. rewrite Hs. split.
      * intros v e' H. inversion H; subst. simpl.
        split; [lia|]. split; [lia|]. split; [reflexivity|].
        apply lookup_insert_eq.
      * intros _ _ w2 Hw2. reflexivity.
    + split.
      * intros v e' H. discriminate H.
      * intros _ _ w2 Hw2. discriminate Hw2.
Qed.

(** ** The in-flight PSBT *)

(** C8.  On a wallet whose PSBT has a first input, [signing_complete]
    returns, leaves the world as it is, and its answer is true exactly
    when the number of partial signatures of that input equals [m]. *)
Theorem signing_complete_first_input (w : world) p input0 rest :
  psbt (self w) = PsbtObject p ->
  inputs p = input0 :: rest ->
  exists b,
    signing_complete w = (Returned b, w) /\
    (b = true <-> Z.of_nat (size (partial_sigs input0)) = m (self w)).
Proof.
  intros Hp Hi. exists (m (self w) =? Z.of_nat (size (partial_sigs input0))).
  split.
  - unfold signing_complete, bind, get_self. rewrite Hp, Hi. reflexivity.
  - rewrite Z.eqb_eq. split; intros H; symmetry; exact H.
Qed.

(** C10.  On a wallet whose [psbt] is [None], [signing_complete] does
    not return a boolean: the attribute lookup raises [AttributeError]
    and the world is as it was. *)
Theorem signing_complete_without_psbt (w : world) :
  psbt (self w) = PsbtNone ->
  signing_complete w =
    (Raised (AttributeError "'NoneType' object has no attribute 'inputs'"), w).
Proof.
  intros Hp. unfold signing_complete, bind, get_self. rewrite Hp. reflexivity.
Qed.

(** ** Balances *)


(** As long as no confirmation count is negative, the loop is the one
    of the specification: zero against every other count. *)
Lemma count_unspent_nonnegative (us : list (unspent amount)) acc :
  Forall (fun u => 0 <= confirmations u) us ->
  fold_left count_unspent us acc = fold_left spec_count_unspent us acc.
Proof.
  intros H. revert acc. induction H as [|u us Hu _ IH]; intros acc;
    [reflexivity|].
  simpl. rewrite <- IH. f_equal.
  unfold count_unspent, spec_count_unspent. destruct acc as [a b].
  destruct (Z.gtb_spec (confirmations u) 0), (Z.eqb_spec (confirmations u) 0);
    try reflexivity; lia.
Qed.



(** ** Relations kept by the methods *)

Lemma same_self_preorder : PreOrder (@same_self amount Node).
Proof.
  split.
  - intros w. reflexivity.
  - intros a b c Hab Hbc. unfold same_self in *. congruence.
Qed.

Lemma untouched_preorder : PreOrder (@untouched amount Node).
Proof.
  split.
  - intros w. split; reflexivity.
  - intros a b c [H1 H2] [H3 H4]. split; congruence.
Qed.

Lemma same_registry_preorder : PreOrder (@same_registry amount Node).
Proof.
  split.
  - intros w. repeat split.
  - intros a b c (H1 & H2 & H3 & H4) (H5 & H6 & H7 & H8).
    repeat split; congruence.
Qed.

Lemma preserves_preorder (P : Wallet -> Prop) :
  PreOrder (@preserves amount Node P).
Proof.
  split.
  - intros w H. exact H.
  - intros a b c Hab Hbc H. exact (Hbc (Hab H)).
Qed.

#[local] Existing Instance same_self_preorder.
#[local] Existing Instance untouched_preorder.
#[local] Existing Instance same_registry_preorder.
#[local] Existing Instance preserves_preorder.

Lemma keeps_weaken (R R' : relation world) {A} (c : M world A) :
  (forall w w', R w w' -> R' w w') -> keeps R c -> keeps R' c.
Proof. intros HR Hc w r w' H. apply HR. eapply Hc. exact H. Qed.

Lemma untouched_wallet_rpc (c : rpc_call amount) :
  keeps untouched (wallet_rpc c).
Proof.
  intros w r w' H. destruct (wallet_rpc_inv _ _ _ _ H) as (Hs & Hd & _).
  split; assumption.
Qed.

Lemma untouched_default_rpc (c : rpc_call amount) :
  keeps untouched (default_rpc c).
Proof.
  intros w r w' H. destruct (default_rpc_inv _ _ _ _ H) as (Hs & Hd & _).
  split; assumption.
Qed.

Lemma untouched_descriptor : keeps (@untouched amount Node) descriptor.
Proof.
  intros w r w' H. destruct (descriptor_inv _ _ _ H) as (Hs & Hd & _).
  split; assumption.
Qed.

(** The shape of a method body, with [prim] for its primitive
    actions. *)
Ltac keeps_shape prim :=
  repeat match goal with
  | |- PreOrder _ => typeclasses eauto
  | H : keeps _ ?c |- keeps _ ?c => exact H
  | |- keeps _ (bind _ _) => apply keeps_bind; [ | | intros ? ]
  | |- keeps _ (ret _) => apply keeps_ret
  | |- keeps _ (raise _) => apply keeps_raise
  | |- keeps _ get_self => apply keeps_get_self
  | |- keeps _ time_now => apply keeps_time_now
  | |- keeps _ (try_except _ _) =>
      apply keeps_try_except; [ | | intros ? ? ? ]
  | H : Some _ = Some _ |- _ => inversion H; subst; clear H
  | H : None = Some _ |- _ => discriminate H
  | H : (if ?b then _ else _) = Some _ |- _ => destruct b
  | |- keeps _ (if ?b then _ else _) => destruct b
  | |- keeps _ (match ?x with _ => _ end) => destruct x
  | |- keeps _ _ => prim
  end.

Ltac untouched_prim :=
  idtac;
  match goal with
  | |- keeps _ (wallet_rpc ?c) => apply (untouched_wallet_rpc c)
  | |- keeps _ (default_rpc ?c) => apply (untouched_default_rpc c)
  | |- keeps _ descriptor => apply untouched_descriptor
  end.

(** X22.  The methods that only ask the node or read the wallet leave the
    wallet object and the wallet files exactly as they were, whether
    they return or raise; in particular [broadcast] keeps the PSBT. *)
Theorem read_only_untouched depth op (w : world) r w' :
  read_only op = true ->
  perform depth op w = (r, w') ->
  self w' = self w /\ disk (outside w') = disk (outside w).
Proof.
  intros Hop H.
  assert (K : keeps untouched (perform depth op)).
  { destruct op; try discriminate Hop; simpl;
      unfold ensure_watchonly, decode_psbt, signing_complete, broadcast,
        balances, balances_fallback;
      keeps_shape untouched_prim. }
  exact (K _ _ _ H).
Qed.

Section SelfBased.

Context (R : relation world) `{!PreOrder R}.
Hypothesis R_self : forall w w' : world, self w' = self w -> R w w'.

Lemma sb_wallet_rpc (c : rpc_call amount) : keeps R (wallet_rpc c).
Proof.
  intros w r w' H. apply R_self.
  exact (proj1 (wallet_rpc_inv _ _ _ _ H)).
Qed.

Lemma sb_default_rpc (c : rpc_call amount) : keeps R (default_rpc c).
Proof.
  intros w r w' H. apply R_self.
  exact (proj1 (default_rpc_inv _ _ _ _ H)).
Qed.

Lemma sb_save : keeps R save.
Proof.
  intros w r w' H. apply R_self.
  destruct (save_persisted _ _ _ H) as (_ & Hs & _). exact Hs.
Qed.

Lemma sb_descriptor : keeps R descriptor.
Proof.
  intros w r w' H. apply R_self.
  exact (proj1 (descriptor_inv _ _ _ H)).
Qed.

End SelfBased.

Lemma keeps_update (R : relation world) (f : Wallet -> Wallet) :
  (forall w, R w (mkWorld (f (self w)) (outside w))) ->
  keeps R (update_self f).
Proof. intros HR w r w' H. inversion H; subst. apply HR. Qed.

(** The primitive actions for a relation that holds whenever the
    wallet object is as it was; [upd] is for the assignments. *)
Ltac self_prim HS upd :=
  idtac;
  match goal with
  | |- keeps _ (wallet_rpc ?c) => apply (sb_wallet_rpc _ HS c)
  | |- keeps _ (default_rpc ?c) => apply (sb_default_rpc _ HS c)
  | |- keeps _ save => apply (sb_save _ HS)
  | |- keeps _ descriptor => apply (sb_descriptor _ HS)
  | |- keeps _ (update_self _) => apply keeps_update; intros ?; upd
  end.

Lemma same_registry_self (w w' : world) :
  self w' = self w -> same_registry w w'.
Proof. intros H. unfold same_registry. rewrite H. repeat split. Qed.

Ltac registry_prim :=
  self_prim same_registry_self ltac:(repeat split).

Lemma registry_export_watchonly :
  keeps (@same_registry amount Node) export_watchonly.
Proof. unfold export_watchonly. keeps_shape registry_prim. Qed.

Lemma registry_address depth :
  keeps (@same_registry amount Node) (address depth).
Proof.
  pose proof registry_export_watchonly as He.
  induction depth as [|d IH]; simpl; keeps_shape registry_prim.
Qed.

Lemma registry_perform depth op :
  is_add_signer op = false ->
  keeps (@same_registry amount Node) (perform depth op).
Proof.
  intros Hop.
  pose proof registry_export_watchonly as He.
  pose proof (registry_address depth) as Ha.
  destruct op; try discriminate Hop; simpl;
    unfold ensure_watchonly, create_psbt, remove_psbt, decode_psbt,
      signing_complete, broadcast, balances, balances_fallback;
    keeps_shape registry_prim.
Qed.

(** [add_signer], however it ends: the name and the thresholds stay,
    and either the wallet was refused and nothing at all happened, or
    the signer was new, the wallet was not ready, and the signer is now
    the last of the registry. *)
Lemma add_signer_inv a b c d (w : world) r w' :
  add_signer a b c d w = (r, w') ->
  name (self w') = name (self w) /\ m (self w') = m (self w) /\
  n (self w') = n (self w) /\
  ((w' = w /\ exists msg, r = Raised (JunctionError msg)) \/
   (ready (self w) = false /\
    (a ∉ map signer_name (signers (self w))) /\
    (b ∉ map fingerprint (signers (self w))) /\
    signers (self w') = signers (self w) ++ [mkSigner a b c d])).
Proof.
  intros H. pose proof registry_export_watchonly as He.
  unfold add_signer in H.
  bind_cases H as v w0 E; [ | discriminate E ].
  inversion E; subst; clear E.
  destruct (ready (self w0)) eqn:Hr.
  { inversion H; subst. repeat split; try reflexivity. left. eauto. }
  destruct (bool_decide (a ∈ map signer_name (signers (self w0)))) eqn:Ha.
  { inversion H; subst. repeat split; try reflexivity. left. eauto. }
  destruct (bool_decide (b ∈ map fingerprint (signers (self w0)))) eqn:Hb.
  { inversion H; subst. repeat split; try reflexivity. left. eauto. }
  apply bool_decide_eq_false in Ha, Hb.
  bind_cases H as u1 w1 E1; [ | discriminate E1 ].
  inversion E1; subst; clear E1.
  match type of H with
  | ?c ?w = _ =>
      assert (K : keeps same_registry c) by keeps_shape registry_prim;
      specialize (K _ _ _ H)
  end.
  destruct K as (K1 & K2 & K3 & K4). simpl in K1, K2, K3, K4.
  repeat split; try assumption. right. repeat split; assumption.
Qed.

(** ** The signer registry *)

(** X1.  A refused signer changes nothing: on a wallet that is ready,
    on a name already registered, and on a fingerprint already
    registered, [add_signer] raises a [JunctionError] and the wallet,
    the files, the node and the trace are as they were. *)
Theorem add_signer_refused a b c d (w : world) :
  (ready (self w) = true \/
   a ∈ map signer_name (signers (self w)) \/
   b ∈ map fingerprint (signers (self w))) ->
  exists msg, add_signer a b c d w = (Raised (JunctionError msg), w).
Proof.
  intros H. unfold add_signer, bind, get_self.
  destruct (ready (self w)) eqn:Hr; [eexists; reflexivity|].
  destruct (bool_decide (a ∈ map signer_name (signers (self w)))) eqn:Ha;
    [eexists; reflexivity|].
  destruct (bool_decide (b ∈ map fingerprint (signers (self w)))) eqn:Hb;
    [eexists; reflexivity|].
  apply bool_decide_eq_false in Ha, Hb.
  destruct H as [H | [H | H]]; [discriminate H | contradiction | contradiction].
Qed.

(** X2.  An accepted signer: when [add_signer] returns, the signer is
    the last of the registry, nothing else of the wallet has changed
    but [export_index], and the wallet is saved.  If the signer
    completes the quorum, exactly one export cycle has run before the
    save (one [getdescriptorinfo], one [importmulti], the index moved by
    one chunk); otherwise no request has been sent. *)
Theorem add_signer_accepted a b c d (w : world) w' :
  add_signer a b c d w = (Returned tt, w') ->
  signers (self w') = signers (self w) ++ [mkSigner a b c d] /\
  name (self w') = name (self w) /\ m (self w') = m (self w) /\
  n (self w') = n (self w) /\ psbt (self w') = psbt (self w) /\
  address_index (self w') = address_index (self w) /\
  persisted w' /\
  (if len (signers (self w)) + 1 =? n (self w)
   then export_index (self w') = export_index (self w) + 100 /\
        ready (self w') = true /\
        imports_requested (requests_since w w') = 1 /\
        length (requests_since w w') = 2%nat
   else export_index (self w') = export_index (self w) /\
        ready (self w') = false /\
        requests_since w w' = []).
Proof.
  intros H. unfold add_signer in H.
  bind_ok H as v w0 E. inversion E; subst; clear E.
  destruct (ready (self w0)); [discriminate H|].
  destruct (bool_decide _); [discriminate H|].
  destruct (bool_decide _); [discriminate H|].
  bind_ok H as u1 w1 E1.
  remember (signers (self w0) ++ [mkSigner a b c d]) as l eqn:Hl.
  assert (Hw1 : self w1 = set_signers l (self w0) /\
                outside w1 = outside w0).
  { inversion E1; subst. split; reflexivity. }
  destruct Hw1 as (Hs1 & Ho1). clear E1.
  bind_ok H as v2 w2 E2. inversion E2; subst v2 w2; clear E2.
  bind_ok H as u3 w3 E3.
  destruct (save_persisted _ _ _ H) as (_ & Hs & Hp & Ht).
  assert (Hlen : len l = len (signers (self w0)) + 1).
  { subst l. unfold len. rewrite length_app. simpl. lia. }
  assert (Hr1 : ready (self w1) = (len (signers (self w0)) + 1 =? n (self w0))).
  { unfold ready. rewrite Hs1. simpl. rewrite Hlen. reflexivity. }
  rewrite Hr1 in E3.
  destruct (len (signers (self w0)) + 1 =? n (self w0)) eqn:Hq.
  - destruct (export_watchonly_inv _ _ _ E3)
      as [(_ & Hs3 & _ & desc & Ht3) | (x & Hx & _)]; [ | discriminate Hx ].
    assert (Hself : self w' =
              set_export_index (export_index (self w0) + ADDRESS_CHUNK)
                (set_signers l (self w0))).
    { rewrite Hs, Hs3, Hs1. reflexivity. }
    assert (Htr : exists t, trace (outside w') = trace (outside w0) ++ t /\
                            imports_requested t = 1 /\ length t = 2%nat).
    { eexists. split; [ rewrite Ht, Ht3, Ho1; reflexivity | ].
      split; reflexivity. }
    destruct Htr as (t & Htr & Hi & Hl2).
    rewrite (requests_since_app _ _ _ Htr).
    unfold ready. rewrite Hself. simpl. rewrite Hlen, Hq.
    repeat split; try reflexivity; assumption.
  - inversion E3; subst u3 w3; clear E3.
    assert (Hself : self w' = set_signers l (self w0)).
    { rewrite Hs, Hs1. reflexivity. }
    assert (Htr : trace (outside w') = trace (outside w0) ++ []).
    { rewrite Ht, Ho1, app_nil_r. reflexivity. }
    rewrite (requests_since_app _ _ _ Htr).
    unfold ready. rewrite Hself. simpl. rewrite Hlen, Hq.
    repeat split; try reflexivity; assumption.
Qed.

(** X3.  Every method keeps the registry well formed: if the wallet
    has no more than [n] signers, no name twice and no fingerprint
    twice, then so it is after the method, whether it returned or
    raised. *)
Theorem registry_invariant depth op (w : world) r w' :
  perform depth op w = (r, w') ->
  registry_ok (self w) -> registry_ok (self w').
Proof.
  intros H (Hlen & Hn & Hf).
  destruct (is_add_signer op) eqn:Hop.
  - destruct op; try discriminate Hop. simpl in H.
    destruct (add_signer_inv _ _ _ _ _ _ _ H)
      as (_ & _ & Hn' & [(-> & _) | (Hr & Ha & Hb & Hs)]).
    + repeat split; assumption.
    + unfold registry_ok. rewrite Hs, Hn', !map_app. simpl.
      unfold ready in Hr. apply Z.eqb_neq in Hr.
      split; [ unfold len in *; rewrite length_app; simpl; lia | ].
      split; apply NoDup_app; (split; [assumption|]);
        (split; [ | apply NoDup_singleton ]);
        intros x Hx Hx'; apply list_elem_of_singleton in Hx'; subst x;
        contradiction.
  - destruct (registry_perform depth op Hop _ _ _ H) as (_ & _ & Hn' & Hs).
    unfold registry_ok. rewrite Hs, Hn'. repeat split; assumption.
Qed.

(** X4.  No method renames the wallet, changes [m] or [n], removes a
    signer or reorders the signers: the registry after a method starts
    with the registry before it, and only [add_signer] extends it. *)
Theorem identity_kept depth op (w : world) r w' :
  perform depth op w = (r, w') ->
  name (self w') = name (self w) /\ m (self w') = m (self w) /\
  n (self w') = n (self w) /\
  signers (self w) `prefix_of` signers (self w') /\
  (is_add_signer op = false -> signers (self w') = signers (self w)).
Proof.
  intros H. destruct (is_add_signer op) eqn:Hop.
  - destruct op; try discriminate Hop. simpl in H.
    destruct (add_signer_inv _ _ _ _ _ _ _ H)
      as (H1 & H2 & H3 & [(-> & _) | (_ & _ & _ & Hs)]).
    + split; [reflexivity|]. split; [reflexivity|]. split; [reflexivity|].
      split; [reflexivity | discriminate].
    + split; [exact H1|]. split; [exact H2|]. split; [exact H3|].
      split; [ | discriminate ].
      rewrite Hs. apply prefix_app_r. reflexivity.
  - destruct (registry_perform depth op Hop _ _ _ H) as (H1 & H2 & H3 & Hs).
    split; [exact H1|]. split; [exact H2|]. split; [exact H3|].
    split; [ rewrite Hs; reflexivity | intros _; exact Hs ].
Qed.

(** ** The two indices *)

(** X5.  Whatever a method does and however it ends, the requests it
    sent are appended to the trace, [address_index] has moved by
    exactly the number of candidates probed with [getaddressinfo], and
    neither index has decreased. *)
Theorem index_accounting depth op (w : world) r w' :
  perform depth op w = (r, w') ->
  trace (outside w') = trace (outside w) ++ requests_since w w' /\
  address_index (self w') =
    address_index (self w) + probes (requests_since w w') /\
  address_index (self w) <= address_index (self w') /\
  export_index (self w) <= export_index (self w').
Proof.
  intros H. destruct (keeps_perform _ _ _ _ _ H) as (t & Ht & Ha & He).
  rewrite (requests_since_app _ _ _ Ht).
  split; [exact Ht|]. split; [exact Ha|].
  unfold probes, imports_answered, len, ADDRESS_CHUNK in *. lia.
Qed.

Lemma allocator_self (P : Wallet -> Prop) (w w' : world) :
  self w' = self w -> preserves P w w'.
Proof. intros H HP. rewrite H. exact HP. Qed.

Ltac allocator_prim :=
  self_prim (allocator_self allocator_ok)
    ltac:(unfold preserves, allocator_ok; simpl; intros; assumption).

Lemma allocator_export_watchonly :
  keeps (preserves allocator_ok) export_watchonly.
Proof.
  intros w r w' H Hinv. unfold allocator_ok in *.
  destruct (export_watchonly_inv _ _ _ H)
    as [(_ & Hs & _) | (x & _ & Hs & _)]; rewrite Hs; simpl.
  - unfold ADDRESS_CHUNK. lia.
  - exact Hinv.
Qed.

Lemma allocator_address depth :
  keeps (preserves allocator_ok) (address depth).
Proof.
  induction depth as [|d IH]; simpl.
  - keeps_shape allocator_prim.
  - intros w r w' H Hinv.
    bind_cases H as v w0 E; [ | discriminate E ].
    inversion E; subst; clear E.
    destruct (negb (ready (self w0))).
    { inversion H; subst. exact Hinv. }
    (* after the export, if any, the index is within the range *)
    bind_cases H as u1 w1 E1.
    + assert (Hin : address_index (self w1) <= export_index (self w1)).
      { destruct (Z.gtb_spec (address_index (self w0)) (export_index (self w0))).
        - destruct (export_watchonly_inv _ _ _ E1)
            as [(_ & Hs & _) | (x & Hx & _)]; [ | discriminate Hx ].
          rewrite Hs. simpl. unfold allocator_ok, ADDRESS_CHUNK in *. lia.
        - inversion E1; subst. assumption. }
      clear E1 Hinv.
      bind_cases H as desc w2 E2.
      * destruct (descriptor_inv _ _ _ E2) as (Hs2 & _).
        bind_cases H as v3 w3 E3; [ | discriminate E3 ].
        inversion E3; subst; clear E3.
        bind_cases H as derived w4 E4.
        -- destruct (wallet_rpc_inv (deriveaddresses _ _) _ _ _ E4)
             as (Hs4 & _).
           destruct derived as [|address0 rest].
           { inversion H; subst. unfold allocator_ok.
             rewrite Hs4, Hs2. lia. }
           bind_cases H as u5 w5 E5; [ | discriminate E5 ].
           inversion E5; subst; clear E5.
           match type of H with
           | ?c ?w = _ =>
               assert (K : keeps (preserves allocator_ok) c)
                 by keeps_shape allocator_prim;
               apply (K _ _ _ H)
           end.
           unfold allocator_ok. simpl. rewrite Hs4, Hs2. lia.
        -- destruct (wallet_rpc_inv (deriveaddresses _ _) _ _ _ E4)
             as (Hs4 & _).
           unfold allocator_ok. rewrite Hs4, Hs2. lia.
      * destruct (descriptor_inv _ _ _ E2) as (Hs2 & _).
        unfold allocator_ok. rewrite Hs2. lia.
    + destruct (Z.gtb_spec (address_index (self w0)) (export_index (self w0))).
      * exact (allocator_export_watchonly _ _ _ E1 Hinv).
      * discriminate E1.
Qed.

(** X6.  The allocator never runs more than one index beyond the
    exported range: if [address_index <= export_index + 1] holds before
    a method, it holds after it, whether the method returned or
    raised. *)
Theorem allocator_invariant depth op (w : world) r w' :
  perform depth op w = (r, w') ->
  allocator_ok (self w) -> allocator_ok (self w').
Proof.
  intros H.
  assert (K : keeps (preserves allocator_ok) (perform depth op)).
  { pose proof allocator_export_watchonly as He.
    pose proof (allocator_address depth) as Ha.
    destruct op; simpl;
      unfold ensure_watchonly, add_signer, create_psbt, remove_psbt,
        decode_psbt, signing_complete, broadcast, balances, balances_fallback;
      keeps_shape allocator_prim. }
  exact (K _ _ _ H).
Qed.

(** ** The watch-only node wallet *)


Lemma default_rpc_eq (c : rpc_call amount) (w : world) :
  default_rpc c w =
  let (r, node') := node_call None c (node (outside w)) in
  (r, mkWorld (self w)
        (mkEnv (disk (outside w)) node'
           (trace (outside w) ++ [mkRequest None c (returned r)])
           (now (outside w)))).
Proof.
  unfold default_rpc, in_env, rpc.
  destruct (node_call None c (node (outside w))). reflexivity.
Qed.


(** X8.  A node wallet that is already loaded is left alone: when the
    node lists the wallet's name, [ensure_watchonly] returns after that
    one request. *)
Theorem ensure_watchonly_loaded (w : world) ws nd :
  node_call None listwallets (node (outside w)) = (Returned ws, nd) ->
  name (self w) ∈ (ws : list string) ->
  exists w',
    ensure_watchonly w = (Returned tt, w') /\
    self w' = self w /\ disk (outside w') = disk (outside w) /\
    node (outside w') = nd /\
    requests_since w w' = [mkRequest None listwallets true].
Proof.
  intros Hl Hin.
  unfold ensure_watchonly, bind, get_self, try_except, watchonly_name.
  rewrite default_rpc_eq, Hl.
  rewrite (bool_decide_eq_true_2 _ Hin). simpl.
  eexists. split; [reflexivity|]. repeat split.
  apply requests_since_app. reflexivity.
Qed.

(** ** Creation and the wallet file *)

(** X9.  [create] never overwrites a wallet file: with [m] and [n]
    within their bounds and a file of that name on disk, it raises a
    [JunctionError] that quotes the path, before any request to the
    node, and everything is as it was. *)
Theorem create_never_overwrites (name0 : string) (m0 n0 : Z)
    (e : env amount Node) (old : wallet_dict) :
  1 <= m0 <= n0 -> n0 <= 5 ->
  disk e !! full_path ("wallets/" +:+ name0 +:+ ".json") = Some old ->
  create name0 m0 n0 e =
    (Raised (JunctionError
       (dq +:+ full_path ("wallets/" +:+ name0 +:+ ".json") +:+ dq +:+
        " wallet file already exists")), e).
Proof.
  intros Hm Hn Hfile. unfold create.
  destruct (Z.gtb_spec m0 n0); [lia|].
  destruct (Z.ltb_spec m0 1); [lia|].
  destruct (Z.gtb_spec n0 5); [lia|].
  unfold bind, ensure_datadir, ret, os_path_exists.
  rewrite Hfile.
  rewrite bool_decide_eq_true_2 by (eexists; reflexivity).
  reflexivity.
Qed.

(** X10.  What [create] does to the disk: when it returns, there was
    no file of that name before and the only change is the new wallet's
    file, which holds the wallet returned; when it raises, for whatever
    reason (a bound, an existing file, the node), the disk is as it
    was. *)
Theorem create_disk_effect (name0 : string) (m0 n0 : Z)
    (e : env amount Node) r e' :
  create name0 m0 n0 e = (r, e') ->
  match r with
  | Returned v =>
      disk e !! full_path ("wallets/" +:+ name0 +:+ ".json") = None /\
      disk e' =
        <[full_path ("wallets/" +:+ name0 +:+ ".json") := to_dict v]> (disk e)
  | Raised _ => disk e' = disk e
  end.
Proof.
  intros H.
  destruct (Z_lt_le_dec n0 m0) as [Hmn|Hmn].
  { unfold create in H. destruct (Z.gtb_spec m0 n0); [ | lia ].
    inversion H; subst. reflexivity. }
  destruct (Z_lt_le_dec m0 1) as [Hm|Hm].
  { unfold create in H. destruct (Z.gtb_spec m0 n0); [ lia | ].
    destruct (Z.ltb_spec m0 1); [ | lia ].
    inversion H; subst. reflexivity. }
  destruct (Z_lt_le_dec 5 n0) as [Hn|Hn].
  { unfold create in H. destruct (Z.gtb_spec m0 n0); [ lia | ].
    destruct (Z.ltb_spec m0 1); [ lia | ].
    destruct (Z.gtb_spec n0 5); [ | lia ].
    inversion H; subst. reflexivity. }
  destruct (disk e !! full_path ("wallets/" +:+ name0 +:+ ".json"))
    as [old|] eqn:Hfile.
  - rewrite (create_never_overwrites _ _ _ _ old) in H by (try lia; assumption).
    inversion H; subst. reflexivity.
  - rewrite (create_in_bounds _ _ _ _ Hmn Hm Hn Hfile) in H.
    destruct (ensure_watchonly (mkWorld (mkWallet name0 m0 n0 [] PsbtNone 0 0) e))
      as [[[]|x] w1] eqn:Ew;
      destruct (ensure_watchonly_self _ _ _ Ew) as (Hs & Hd);
      simpl in Hs, Hd; inversion H; subst; simpl.
    + rewrite Hs, Hd. split; reflexivity.
    + exact Hd.
Qed.

(** ** The wallet record *)

(** X11.  [from_dict] after [to_dict]: a wallet without a PSBT comes
    back with the empty string in place of its PSBT ([None] does not
    survive the record) and is otherwise the same; a wallet with a PSBT
    comes back as it was when the PSBT's text is not empty and
    [deserialize] undoes [serialize] on it.  In both cases the record of
    the wallet that comes back is the record it was read from. *)
Theorem from_dict_to_dict (v : Wallet) :
  (forall p, psbt v = PsbtObject p ->
             psbt_serialize p <> EmptyString /\
             psbt_deserialize (psbt_serialize p) = Returned p) ->
  exists v',
    from_dict (to_dict v) = Returned v' /\
    to_dict v' = to_dict v /\
    v' = set_psbt (match psbt v with
                   | PsbtObject p => PsbtObject p
                   | _ => PsbtEmptyStr
                   end) v.
Proof.
  intros Hrt. destruct v as [nm mm nn sg ps ai ei]. simpl in *.
  unfold from_dict, to_dict. simpl.
  destruct ps as [ | | p]; simpl.
  - eexists. split; [reflexivity|]. split; reflexivity.
  - eexists. split; [reflexivity|]. split; reflexivity.
  - destruct (Hrt p eq_refl) as (Hne & Hds).
    destruct (psbt_serialize p) as [|ch text] eqn:Hser; [contradiction|].
    rewrite Hds. eexists. split; [reflexivity|].
    split; [ simpl; rewrite Hser; reflexivity | reflexivity ].
Qed.


(** ** The PSBT life cycle *)

(** X13.  [create_psbt] refuses without touching anything: on a wallet
    that holds a PSBT it raises [JunctionError] (PSBT already present),
    and on a wallet without PSBT that is not ready it raises the
    [JunctionError] of [address]; in both cases the world is as it
    was: no address index is consumed and no request is sent. *)
Theorem create_psbt_refused depth recipient satoshis (w : world) :
  (psbt_truthy (psbt (self w)) = true ->
   create_psbt depth recipient satoshis w =
     (Raised (JunctionError "PSBT already present"), w)) /\
  (psbt_truthy (psbt (self w)) = false -> ready (self w) = false ->
   create_psbt (S depth) recipient satoshis w =
     (Raised (JunctionError
        (pretty (n (self w)) +:+ " signers required, " +:+
         pretty (len (signers (self w))) +:+ " registered")), w)).
Proof.
  split.
  - intros Hp. unfold create_psbt, bind, get_self. rewrite Hp. reflexivity.
  - intros Hp Hr. unfold create_psbt, bind at 1, get_self at 1. rewrite Hp.
    unfold bind at 1. simpl. unfold bind at 1, get_self at 1.
    rewrite Hr. reflexivity.
Qed.


(** X15.  A PSBT text that [deserialize] rejects leaves the wallet
    stuck: the attribute was bound to a fresh [PSBT()] before
    [deserialize] ran, so after the exception the wallet in memory holds
    a PSBT object, and every further [create_psbt] is refused with
    [JunctionError] (PSBT already present). *)
Theorem create_psbt_rejected_text depth recipient satoshis (w : world)
    change_address w1 raw nd x :
  psbt_truthy (psbt (self w)) = false ->
  address depth w = (Returned change_address, w1) ->
  node_call (Some (name (self w1)))
    (walletcreatefundedpsbt [] [(recipient, sat_to_btc satoshis)] 0
       (mkFundOptions true change_address) true) (node (outside w1))
    = (Returned raw, nd) ->
  psbt_deserialize raw = Raised x ->
  exists w',
    create_psbt depth recipient satoshis w = (Raised x, w') /\
    psbt_truthy (psbt (self w')) = true /\
    forall depth' recipient' satoshis',
      create_psbt depth' recipient' satoshis' w' =
        (Raised (JunctionError "PSBT already present"), w').
Proof.
  intros Hp Ha Hn Hd.
  unfold create_psbt at 1, bind at 1, get_self at 1. rewrite Hp.
  unfold bind at 1. rewrite Ha.
  unfold bind at 1. rewrite wallet_rpc_eq, Hn.
  unfold bind at 1. simpl. rewrite Hd.
  eexists. split; [reflexivity|]. split; [reflexivity|].
  intros depth' recipient' satoshis'. reflexivity.
Qed.

(** X16.  [broadcast] never submits a transaction that the node has
    not finalized: without a PSBT it raises [AttributeError] and sends
    nothing; with one, it asks for the finalized transaction first, and
    either that request raises and nothing is submitted, or the
    transaction submitted is the node's answer and the outcome of
    [broadcast] is the outcome of the submission. *)
Theorem broadcast_outcomes (w : world) r w' :
  broadcast w = (r, w') ->
  match psbt (self w) with
  | PsbtObject p =>
      (exists x,
          r = Raised x /\
          requests_since w w' =
            [mkRequest (Some (name (self w)))
               (finalizepsbt (psbt_serialize p)) false]) \/
      (exists tx_hex nd,
          node_call (Some (name (self w))) (finalizepsbt (psbt_serialize p))
            (node (outside w)) = (Returned tx_hex, nd) /\
          fst (node_call (Some (name (self w))) (sendrawtransaction tx_hex) nd)
            = r /\
          requests_since w w' =
            [mkRequest (Some (name (self w)))
               (finalizepsbt (psbt_serialize p)) true;
             mkRequest (Some (name (self w)))
               (sendrawtransaction tx_hex) (returned r)])
  | _ => w' = w /\ exists msg, r = Raised (AttributeError msg)
  end.
Proof.
  intros H. unfold broadcast in H.
  bind_cases H as v w0 E; [ | discriminate E ].
  inversion E; subst; clear E.
  destruct (psbt (self w0)) as [ | | p].
  - inversion H; subst. split; [reflexivity | eexists; reflexivity].
  - inversion H; subst. split; [reflexivity | eexists; reflexivity].
  - bind_cases H as tx_hex w1 E1.
    + right.
      destruct (wallet_rpc_inv (finalizepsbt _) _ _ _ E1)
        as (Hs1 & _ & _ & Ht1 & Hn1).
      destruct (wallet_rpc_inv (sendrawtransaction _) _ _ _ H)
        as (Hs2 & _ & _ & Ht2 & Hn2).
      exists tx_hex, (node (outside w1)).
      split; [exact Hn1|]. rewrite Hs1 in Hn2, Ht2.
      split; [rewrite Hn2; reflexivity|].
      apply requests_since_app. rewrite Ht2, Ht1, <- app_assoc. reflexivity.
    + left. exists tx_hex. split; [exact H|].
      destruct (wallet_rpc_inv (finalizepsbt _) _ _ _ E1)
        as (_ & _ & _ & Ht1 & _).
      apply requests_since_app. exact Ht1.
Qed.

(** ** Balances, aggregate query *)

(** X17.  When the node answers the aggregate query, [balances]
    returns the pending and the trusted amount of the watch-only
    section, or zero twice when the answer has no such section, after
    that one request; when the section lacks one of the two amounts,
    the [KeyError] is caught like any other exception and the result is
    that of the manual count, started after the aggregate request. *)
Theorem balances_aggregate (w : world) info nd :
  node_call (Some (name (self w))) getbalances (node (outside w))
    = (Returned info, nd) ->
  let w1 := mkWorld (self w)
              (mkEnv (disk (outside w)) nd
                 (trace (outside w) ++
                  [mkRequest (Some (name (self w))) getbalances true])
                 (now (outside w))) in
  balances w =
    match watchonly info with
    | None => (Returned (amount_zero, amount_zero), w1)
    | Some section =>
        match untrusted_pending section, trusted section with
        | Some pending, Some confirmed => (Returned (pending, confirmed), w1)
        | _, _ => balances_fallback w1
        end
    end.
Proof.
  intros Hb. simpl.
  unfold balances, try_except, bind at 1.
  rewrite wallet_rpc_eq, Hb. simpl.
  destruct (watchonly info) as [section|]; [ | reflexivity ].
  destruct (untrusted_pending section) as [pending|];
    destruct (trusted section) as [confirmed|]; reflexivity.
Qed.

(** X18.  The manual count does not hide its own failure: when the
    aggregate query raises and [listunspent] raises too, [balances]
    raises the exception of [listunspent]. *)
Theorem balances_both_fail (w : world) x nd1 y nd2 :
  node_call (Some (name (self w))) getbalances (node (outside w))
    = (Raised x, nd1) ->
  node_call (Some (name (self w))) (listunspent 0 9999999 [] true) nd1
    = (Raised y, nd2) ->
  fst (balances w) = Raised y /\
  self (snd (balances w)) = self w /\
  requests_since w (snd (balances w)) =
    [mkRequest (Some (name (self w))) getbalances false;
     mkRequest (Some (name (self w))) (listunspent 0 9999999 [] true) false].
Proof.
  intros Hb Hl.
  unfold balances, try_except, balances_fallback, bind.
  rewrite wallet_rpc_eq, Hb. simpl.
  rewrite wallet_rpc_eq. simpl. rewrite Hl. simpl.
  split; [reflexivity|]. split; [reflexivity|].
  apply requests_since_app. simpl. rewrite <- app_assoc. reflexivity.
Qed.

(** ** Sorted keys *)

Lemma insert_sorted_hd (x y : string) (l : list string) :
  String.leb y x = true ->
  HdRel (fun a b => String.leb a b = true) y l ->
  HdRel (fun a b => String.leb a b = true) y (insert_sorted x l).
Proof.
  intros Hyx Hl. destruct l as [|z l]; simpl.
  - constructor. exact Hyx.
  - destruct (String.leb x z); constructor; [exact Hyx|].
    inversion Hl; assumption.
Qed.

Lemma insert_sorted_Sorted (x : string) (l : list string) :
  Sorted (fun a b => String.leb a b = true) l ->
  Sorted (fun a b => String.leb a b = true) (insert_sorted x l).
Proof.
  induction l as [|y l IH]; intros Hs; simpl.
  - repeat constructor.
  - destruct (String.leb x y) eqn:Hxy.
    + constructor; [exact Hs | constructor; exact Hxy].
    + inversion Hs as [|? ? Hs' Hhd]; subst.
      constructor; [exact (IH Hs')|].
      apply insert_sorted_hd; [ | exact Hhd ].
      destruct (String.leb_total x y) as [H|H]; [congruence | exact H].
Qed.

(** [sorted] sorts: each string is at most its successor. *)
Lemma sorted_Sorted (l : list string) :
  Sorted (fun a b => String.leb a b = true) (sorted l).
Proof.
  induction l as [|x l IH]; simpl; [constructor|].
  apply insert_sorted_Sorted. exact IH.
Qed.

Lemma insert_sorted_Permutation (x : string) (l : list string) :
  Permutation (x :: l) (insert_sorted x l).
Proof.
  induction l as [|y l IH]; simpl; [reflexivity|].
  destruct (String.leb x y); [reflexivity|].
  rewrite <- IH. apply perm_swap.
Qed.

(** [sorted] keeps the elements. *)
Lemma sorted_Permutation (l : list string) : Permutation l (sorted l).
Proof.
  induction l as [|x l IH]; simpl; [reflexivity|].
  rewrite <- insert_sorted_Permutation. constructor. exact IH.
Qed.

(** X19.  [address] never returns an address whose keys are out of
    order: the address returned was looked up with [getaddressinfo] in
    the last request of the call, and the node's answer to that request
    marked it watch-only and listed its public keys in ascending
    order. *)
Theorem address_returns_sorted depth (w : world) a w' :
  address depth w = (Returned a, w') ->
  exists nd ai,
    node_call (Some (name (self w'))) (getaddressinfo a) nd
      = (Returned ai, node (outside w')) /\
    iswatchonly ai = true /\
    Sorted (fun x y => String.leb x y = true) (pubkeys ai) /\
    last (requests_since w w') =
      Some (mkRequest (Some (name (self w'))) (getaddressinfo a) true).
Proof.
  revert w. induction depth as [|d IH]; intros w H; simpl in H.
  - discriminate H.
  - bind_ok H as v w0 E. inversion E; subst; clear E.
    destruct (negb (ready (self w0))); [discriminate H|].
    bind_ok H as u1 w1 E1. by_keeps E1 as K1.
    bind_ok H as desc w2 E2. by_keeps E2 as K2.
    bind_ok H as v3 w3 E3. inversion E3; subst; clear E3.
    bind_ok H as derived w4 E4. by_keeps E4 as K4.
    destruct derived as [|address0 rest]; [discriminate H|].
    bind_ok H as u5 w5 E5. inversion E5; subst; clear E5.
    bind_ok H as ai w6 E6.
    destruct (wallet_rpc_inv (getaddressinfo _) _ _ _ E6)
      as (Hs6 & _ & _ & Ht6 & Hn6).
    simpl in Hs6, Ht6, Hn6.
    assert (Hpre : exists t, trace (outside w6) = trace (outside w0) ++ t /\
                             last t = Some (mkRequest (Some (name (self w6)))
                                              (getaddressinfo address0) true)).
    { destruct (accounted_trace _ _ K1) as (t1 & Ht1).
      destruct (accounted_trace _ _ K2) as (t2 & Ht2).
      destruct (accounted_trace _ _ K4) as (t4 & Ht4).
      eexists. split.
      - rewrite Ht6, Ht4, Ht2, Ht1, <- !app_assoc. reflexivity.
      - rewrite !app_assoc, last_snoc, Hs6. reflexivity. }
    destruct Hpre as (t & Ht & Hlast).
    destruct (iswatchonly ai) eqn:Hw; [ | discriminate H ]. simpl in H.
    destruct (bool_decide (pubkeys ai = sorted (pubkeys ai))) eqn:Hsorted;
      simpl in H.
    + bind_ok H as u7 w7 E7. inversion H; subst a w7; clear H.
      rewrite save_eq in E7. inversion E7; subst w'; clear E7. simpl.
      exists (node (outside w4)), ai.
      rewrite Hs6 in *. simpl in *.
      split; [exact Hn6|]. split; [exact Hw|]. split.
      * apply bool_decide_eq_true in Hsorted. rewrite Hsorted.
        apply sorted_Sorted.
      * erewrite requests_since_app by (simpl; exact Ht). exact Hlast.
    + destruct (IH _ H) as (nd & ai' & Hn & Hw' & Hs' & Hl').
      exists nd, ai'. split; [exact Hn|]. split; [exact Hw'|].
      split; [exact Hs'|].
      pose proof (keeps_address _ _ _ _ H) as K7.
      destruct (accounted_trace _ _ K7) as (t7 & Ht7).
      rewrite (requests_since_app _ _ _ Ht7) in Hl'.
      rewrite Ht, <- app_assoc in Ht7.
      rewrite (requests_since_app _ _ _ Ht7).
      destruct t7 as [|q t7]; [discriminate Hl'|].
      rewrite last_app. rewrite Hl'. reflexivity.
Qed.

(** ** Export cycles, all or nothing *)

(** X20.  An export cycle is all or nothing for the wallet: when it
    returns, [export_index] is the only attribute that changed and the
    only change on disk is the wallet's own file, which holds the new
    wallet; when it raises, the wallet and the disk are as they were. *)
Theorem export_watchonly_all_or_nothing (w : world) r w' :
  export_watchonly w = (r, w') ->
  match r with
  | Returned _ =>
      self w' = set_export_index (export_index (self w) + 100) (self w) /\
      disk (outside w') =
        <[full_path (wallet_file_path (self w)) := to_dict (self w')]>
          (disk (outside w))
  | Raised _ => self w' = self w /\ disk (outside w') = disk (outside w)
  end.
Proof.
  unfold export_watchonly. intros H.
  bind_cases H as v w0 E; [ | discriminate E].
  inversion E; subst; clear E.
  bind_cases H as desc w1 E1.
  - destruct (descriptor_inv _ _ _ E1) as (Hs1 & Hd1 & _).
    bind_cases H as t w2 E2; [ | discriminate E2].
    inversion E2; subst; clear E2.
    bind_cases H as v3 w3 E3; [ | discriminate E3].
    inversion E3; subst; clear E3.
    bind_cases H as u4 w4 E4.
    + destruct (wallet_rpc_inv (importmulti _) _ _ _ E4) as (Hs2 & Hd2 & _).
      bind_cases H as u5 w5 E5; [ | discriminate E5].
      inversion E5; subst; clear E5.
      rewrite save_eq in H. inversion H; subst; clear H. simpl.
      rewrite Hs2, Hs1, Hd2, Hd1. split; reflexivity.
    + subst r.
      destruct (wallet_rpc_inv (importmulti _) _ _ _ E4) as (Hs2 & Hd2 & _).
      split; congruence.
  - subst r. destruct (descriptor_inv _ _ _ E1) as (Hs1 & Hd1 & _).
    split; assumption.
Qed.

(** ** The recursion limit *)

(** X21.  The recursion limit does not shape the result: whatever
    [address] does within a limit, short of running into it, it does
    with any larger limit. *)
Theorem address_limit_irrelevant depth (w : world) r w' :
  address depth w = (r, w') ->
  r <> Raised RecursionError ->
  address (S depth) w = (r, w').
Proof.
  revert w. induction depth as [|d IH]; intros w H Hr.
  - inversion H; subst. contradiction.
  - change (address (S (S d))) with
      (w <- get_self ;;
       if negb (ready w) then
         raise (JunctionError (pretty (n w) +:+ " signers required, " +:+
                               pretty (len (signers w)) +:+ " registered"))
       else
         (if address_index w >? export_index w
          then export_watchonly else ret tt) ;;;
         desc <- descriptor ;;
         w <- get_self ;;
         derived <- wallet_rpc (deriveaddresses desc
                      [address_index w; address_index w + 1]) ;;
         match derived with
         | [] => raise (IndexError "list index out of range")
         | address0 :: _ =>
             update_self (fun w => set_address_index (address_index w + 1) w) ;;;
             ai <- wallet_rpc (getaddressinfo address0) ;;
             if negb (iswatchonly ai) then
               raise (AssertionError "Bitcoin Core gave us non-watch-only address")
             else if negb (bool_decide (pubkeys ai = sorted (pubkeys ai))) then
               address (S d)
             else
               save ;;; ret address0
         end).
    simpl in H. unfold bind in *.
    repeat match type of H with
           | context [match ?x with _ => _ end] =>
               destruct x eqn:?; try exact H
           | context [if ?b then _ else _] =>
               destruct b eqn:?; try exact H
           end.
    apply IH; assumption.
Qed.
End Bookkeeping.

(** * The sample runs *)

Import Sample.




(** C3, the claim as stated fails: the first export cycle of the 2-of-2
    wallet passes the range [[0, 100]], whose end bound is index
    [0 + 100]; with both bounds counted the range has 101 indices. *)
Lemma export_range_counterexample :
  requests_since (world_of wallet_2of2 quiet_node)
    (snd (export_watchonly (world_of wallet_2of2 quiet_node))) =
    [mkRequest (Some "shared")
       (getdescriptorinfo (raw_descriptor wallet_2of2)) true;
     mkRequest (Some "shared")
       (importmulti
          [mkImport (raw_descriptor wallet_2of2 +:+ "#checksum")
             (1000000 - 86400) [0; 100] true false false]) true] /\
  export_index wallet_2of2 = 0 /\
  In (export_index wallet_2of2 + 100) [0; 100] /\
  in_range [0; 100] (export_index wallet_2of2 + 100) = true /\
  range_size [0; 100] <> 100.
Proof.
  split; [vm_compute; reflexivity|].
  split; [reflexivity|].
  split; [right; left; reflexivity|].
  split; [reflexivity|].
  vm_compute. discriminate.
Qed.

(** C3 on the sample run: the first export cycle of the 2-of-2 wallet. *)
Lemma export_range_bounds_witness :
  exists desc range,
    requests_since (world_of wallet_2of2 quiet_node)
      (snd (export_watchonly (world_of wallet_2of2 quiet_node))) =
      [mkRequest (Some "shared")
         (getdescriptorinfo (raw_descriptor wallet_2of2)) true;
       mkRequest (Some "shared")
         (importmulti
            [mkImport desc (1000000 - 86400) range true false false]) true] /\
    range = [0; 0 + 100] /\
    last range =
      Some (export_index
              (self (snd (export_watchonly (world_of wallet_2of2 quiet_node))))) /\
    in_range range (0 + 100) = true /\
    range_size range = 101.
Proof.
  apply (export_range_bounds (world_of wallet_2of2 quiet_node)).
  vm_compute. reflexivity.
Defined.

(** C4, the code at the failing input: the wallet has created a PSBT
    and saved it; [remove_psbt] returns, the wallet in memory has no
    PSBT, the wallet file still holds the PSBT text. *)
Lemma remove_psbt_not_saved :
  persisted world_with_psbt /\
  fst (remove_psbt world_with_psbt) = Returned tt /\
  psbt (self (snd (remove_psbt world_with_psbt))) = PsbtNone /\
  d_psbt <$> (disk (outside (snd (remove_psbt world_with_psbt)))
                !! "/data/wallets/shared.json") = Some "cHNidP8BAFICAAAA" /\
  d_psbt (to_dict (self (snd (remove_psbt world_with_psbt)))) = EmptyString /\
  ~ persisted (snd (remove_psbt world_with_psbt)).
Proof.
  split; [vm_compute; reflexivity|].
  split; [reflexivity|].
  split; [reflexivity|].
  split; [vm_compute; reflexivity|].
  split; [reflexivity|].
  unfold persisted. vm_compute. intros H. discriminate H.
Qed.

(** C5, the claim as stated fails: on a wallet that waits for its
    second signer, [descriptor] returns the node's answer. *)
Lemma descriptor_not_ready_counterexample :
  ready wallet_waiting = false /\
  fst (descriptor (world_of wallet_waiting quiet_node)) =
    Returned "sh(multi(2,[aaaa1111/44h/1h/0h]tpubA/0/*))#checksum".
Proof. split; vm_compute; reflexivity. Qed.

(** C5 on the sample run: the wallet that waits for its second signer. *)
Lemma descriptor_no_ready_check_witness :
  fst (descriptor (world_of wallet_waiting quiet_node)) =
    fst (node_call (Some "shared")
           (getdescriptorinfo (raw_descriptor wallet_waiting)) quiet_node) /\
  address 3 (world_of wallet_waiting quiet_node) =
    (Raised (JunctionError "2 signers required, 1 registered"),
     world_of wallet_waiting quiet_node).
Proof.
  destruct (descriptor_no_ready_check (amount := Z) (Node := node_state))
    as (H1 & H2).
  split.
  - apply (H1 (world_of wallet_waiting quiet_node)).
  - apply (H2 2%nat (world_of wallet_waiting quiet_node)). reflexivity.
Defined.

(** C6 on the sample run: a 2-of-3 wallet on a node that answers. *)
Lemma create_bounds_witness :
  fst (create "shared" 2 3 (fresh_env quiet_node)) =
    Returned (mkWallet "shared" 2 3 [] PsbtNone 0 0).
Proof.
  refine (proj2 (proj2 (proj2 (proj2
            (create_bounds "shared" 2 3 (fresh_env quiet_node) _)))) _ _
            (snd (ensure_watchonly
                    (mkWorld (mkWallet "shared" 2 3 [] PsbtNone 0 0)
                       (fresh_env quiet_node)))) _).
  - vm_compute. reflexivity.
  - lia.
  - lia.
  - vm_compute. reflexivity.
Defined.

(** The three messages, on the sample node. *)
Example create_rejects_m_above_n :
  fst (create "shared" 3 2 (fresh_env quiet_node)) =
    Raised (JunctionError
      (dq +:+ "m" +:+ dq +:+ " (3) must be no larger than " +:+
       dq +:+ "n" +:+ dq +:+ " (2)")).
Proof. vm_compute. reflexivity. Qed.

Example create_rejects_m_below_1 :
  fst (create "shared" 0 2 (fresh_env quiet_node)) =
    Raised (JunctionError (dq +:+ "m" +:+ dq +:+ " (0) must be larger than 0")).
Proof. vm_compute. reflexivity. Qed.

Example create_rejects_n_above_5 :
  fst (create "shared" 1 6 (fresh_env quiet_node)) =
    Raised (JunctionError (dq +:+ "n" +:+ dq +:+ " (6) cannot exceed 5")).
Proof. vm_compute. reflexivity. Qed.

(** Within the bounds, creation still needs the node. *)
Example create_needs_the_node :
  fst (create "shared" 2 3 (fresh_env dead_node)) =
    Raised (JunctionError "Connection refused").
Proof. vm_compute. reflexivity. Qed.

(** C7, the claim as stated fails: for the two sample signers the
    string sent to the node marks hardened steps with the letter h; it
    is not the string with apostrophes, whether the entries are
    separated by a comma or by a comma and a blank. *)
Lemma descriptor_format_counterexample :
  ready wallet_2of2 = true /\
  raw_descriptor wallet_2of2 =
    "sh(multi(2,[aaaa1111/44h/1h/0h]tpubA/0/*,[bbbb2222/44h/1h/0h]tpubB/0/*))" /\
  spec_descriptor "'" "," wallet_2of2 =
    "sh(multi(2,[aaaa1111/44'/1'/0']tpubA/0/*,[bbbb2222/44'/1'/0']tpubB/0/*))" /\
  raw_descriptor wallet_2of2 <> spec_descriptor "'" "," wallet_2of2 /\
  raw_descriptor wallet_2of2 <> spec_descriptor "'" ", " wallet_2of2.
Proof.
  split; [reflexivity|].
  split; [vm_compute; reflexivity|].
  split; [vm_compute; reflexivity|].
  split; vm_compute; discriminate.
Qed.

(** C7 on the sample run: the two sample signers. *)
Lemma raw_descriptor_format_witness :
  raw_descriptor wallet_2of2 = spec_descriptor "h" "," wallet_2of2 /\
  requests_since (world_of wallet_2of2 quiet_node)
    (snd (descriptor (world_of wallet_2of2 quiet_node))) =
    [mkRequest (Some "shared")
       (getdescriptorinfo (spec_descriptor "h" "," wallet_2of2)) true].
Proof.
  destruct (raw_descriptor_format (amount := Z) (Node := node_state))
    as (H1 & H2).
  split.
  - apply H1.
  - apply (H2 (world_of wallet_2of2 quiet_node)
              (Returned (raw_descriptor wallet_2of2 +:+ "#checksum"))).
    vm_compute. reflexivity.
Defined.

(** C8 on the sample run: two signatures on the first input of a 2-of-2
    wallet. *)
Lemma signing_complete_first_input_witness :
  exists b,
    signing_complete (world_of (wallet_signing two_signatures) quiet_node) =
      (Returned b, world_of (wallet_signing two_signatures) quiet_node) /\
    (b = true <-> Z.of_nat (size two_signatures) = 2).
Proof.
  apply (signing_complete_first_input
           (world_of (wallet_signing two_signatures) quiet_node)
           (psbt_with two_signatures) (mkInput two_signatures) [mkInput ∅]);
    reflexivity.
Defined.

(** The fixtures of the specification: no signature, [m - 1]
    signatures, [m] signatures on the first input of a 2-of-2 wallet. *)
Example signing_complete_0_of_2 :
  fst (signing_complete (world_of (wallet_signing no_signature) quiet_node))
  = Returned false.
Proof. vm_compute. reflexivity. Qed.

Example signing_complete_1_of_2 :
  fst (signing_complete (world_of (wallet_signing one_signature) quiet_node))
  = Returned false.
Proof. vm_compute. reflexivity. Qed.

Example signing_complete_2_of_2 :
  fst (signing_complete (world_of (wallet_signing two_signatures) quiet_node))
  = Returned true.
Proof. vm_compute. reflexivity. Qed.

(** C10 on the sample run: the 2-of-2 wallet before any PSBT. *)
Lemma signing_complete_without_psbt_witness :
  signing_complete (world_of wallet_2of2 quiet_node) =
    (Raised (AttributeError "'NoneType' object has no attribute 'inputs'"),
     world_of wallet_2of2 quiet_node).
Proof.
  apply (signing_complete_without_psbt (world_of wallet_2of2 quiet_node)).
  reflexivity.
Defined.



(** * Sample runs of the further properties *)

(** X22 on the sample run: [broadcast] on a fully signed wallet. *)
Lemma read_only_untouched_witness :
  self (snd (perform 5 OpBroadcast
               (world_of (wallet_signing two_signatures) quiet_node))) =
    wallet_signing two_signatures /\
  disk (outside (snd (perform 5 OpBroadcast
                        (world_of (wallet_signing two_signatures) quiet_node))))
    = ∅.
Proof.
  apply (read_only_untouched 5 OpBroadcast
           (world_of (wallet_signing two_signatures) quiet_node)
           (Returned tt)).
  - reflexivity.
  - vm_compute. reflexivity.
Defined.

(** X1 on the sample run: a third signer for the complete 2-of-2
    wallet. *)
Lemma add_signer_refused_witness :
  exists msg,
    add_signer "carol" "cccc3333" "tpubC" "m/44h/1h/0h"
      (world_of wallet_2of2 quiet_node) =
    (Raised (JunctionError msg), world_of wallet_2of2 quiet_node).
Proof.
  apply (add_signer_refused "carol" "cccc3333" "tpubC" "m/44h/1h/0h"
           (world_of wallet_2of2 quiet_node)).
  left. reflexivity.
Defined.

(** X2 on the sample run: bob completes the 2-of-2 wallet. *)
Lemma add_signer_accepted_witness :
  signers (self (snd (add_signer "bob" "bbbb2222" "tpubB" "m/44h/1h/0h"
                        (world_of wallet_waiting quiet_node)))) =
    [alice; bob].
Proof.
  refine (proj1 (add_signer_accepted "bob" "bbbb2222" "tpubB" "m/44h/1h/0h"
                   (world_of wallet_waiting quiet_node)
                   (snd (add_signer "bob" "bbbb2222" "tpubB" "m/44h/1h/0h"
                           (world_of wallet_waiting quiet_node))) _)).
  vm_compute. reflexivity.
Defined.

(** X3 on the sample run: bob joins the wallet that waits for him. *)
Lemma registry_invariant_witness :
  registry_ok
    (self (snd (perform 5 (OpAddSigner "bob" "bbbb2222" "tpubB" "m/44h/1h/0h")
                  (world_of wallet_waiting quiet_node)))).
Proof.
  apply (registry_invariant 5
           (OpAddSigner "bob" "bbbb2222" "tpubB" "m/44h/1h/0h")
           (world_of wallet_waiting quiet_node) (Returned tt)).
  - vm_compute. reflexivity.
  - split; [ vm_compute; discriminate | ].
    split; apply (bool_decide_unpack _); vm_compute; exact I.
Defined.

(** X4 on the sample run: an allocation on the 2-of-2 wallet. *)
Lemma identity_kept_witness :
  name (self (snd (perform 5 OpAddress (world_of wallet_2of2 skipping_node))))
    = "shared" /\
  m (self (snd (perform 5 OpAddress (world_of wallet_2of2 skipping_node)))) = 2 /\
  n (self (snd (perform 5 OpAddress (world_of wallet_2of2 skipping_node)))) = 2 /\
  [alice; bob] `prefix_of`
    signers (self (snd (perform 5 OpAddress (world_of wallet_2of2 skipping_node)))) /\
  (is_add_signer OpAddress = false ->
   signers (self (snd (perform 5 OpAddress (world_of wallet_2of2 skipping_node))))
     = [alice; bob]).
Proof.
  apply (identity_kept 5 OpAddress (world_of wallet_2of2 skipping_node)
           (Returned tt)).
  vm_compute. reflexivity.
Defined.

(** X5 on the sample run: an allocation that skips one candidate. *)
Lemma index_accounting_witness :
  address_index
    (self (snd (perform 5 OpAddress (world_of wallet_2of2 skipping_node)))) =
    0 + probes (requests_since (world_of wallet_2of2 skipping_node)
                  (snd (perform 5 OpAddress
                          (world_of wallet_2of2 skipping_node)))).
Proof.
  refine (proj1 (proj2 (index_accounting 5 OpAddress
                          (world_of wallet_2of2 skipping_node)
                          (Returned tt) _ _))).
  vm_compute. reflexivity.
Defined.

(** X6 on the sample run: the wallet one address beyond its range. *)
Lemma allocator_invariant_witness :
  allocator_ok
    (self (snd (perform 5 OpAddress (world_of wallet_ahead quiet_node)))).
Proof.
  apply (allocator_invariant 5 OpAddress (world_of wallet_ahead quiet_node)
           (Returned tt)).
  - vm_compute. reflexivity.
  - vm_compute. discriminate.
Defined.


(** X8 on the sample run: the node wallet is already there. *)
Lemma ensure_watchonly_loaded_witness :
  exists w',
    ensure_watchonly (world_of wallet_2of2 loaded_node) = (Returned tt, w') /\
    self w' = wallet_2of2 /\ disk (outside w') = ∅ /\
    node (outside w') = loaded_node /\
    requests_since (world_of wallet_2of2 loaded_node) w' =
      [mkRequest None listwallets true].
Proof.
  apply (ensure_watchonly_loaded (world_of wallet_2of2 loaded_node)
           ["shared"] loaded_node).
  - reflexivity.
  - apply (bool_decide_unpack _). vm_compute. exact I.
Defined.

(** X9 on the sample run: a second creation under the same name. *)
Lemma create_never_overwrites_witness :
  create "shared" 1 1 env_with_file =
    (Raised (JunctionError
       (dq +:+ "/data/wallets/shared.json" +:+ dq +:+
        " wallet file already exists")), env_with_file).
Proof.
  refine (create_never_overwrites "shared" 1 1 env_with_file
            (to_dict (mkWallet "shared" 2 3 [] PsbtNone 0 0)) _ _ _).
  - lia.
  - lia.
  - vm_compute. reflexivity.
Defined.

(** X10 on the sample run: the first creation. *)
Lemma create_disk_effect_witness :
  (∅ : gmap string wallet_dict) !! "/data/wallets/shared.json" = None /\
  disk env_with_file =
    <["/data/wallets/shared.json" :=
        to_dict (mkWallet "shared" 2 3 [] PsbtNone 0 0)]> ∅.
Proof.
  refine (create_disk_effect "shared" 2 3 (fresh_env quiet_node)
            (Returned (mkWallet "shared" 2 3 [] PsbtNone 0 0)) env_with_file _).
  vm_compute. reflexivity.
Defined.

(** X11 on the sample run: the wallet that has created a PSBT. *)
Lemma from_dict_to_dict_witness :
  exists v',
    from_dict (to_dict (self world_with_psbt)) = Returned v' /\
    to_dict v' = to_dict (self world_with_psbt) /\
    v' = set_psbt (match psbt (self world_with_psbt) with
                   | PsbtObject p => PsbtObject p
                   | _ => PsbtEmptyStr
                   end) (self world_with_psbt).
Proof.
  apply (from_dict_to_dict (self world_with_psbt)).
  intros p Hp. vm_compute in Hp. inversion Hp; subst p.
  split; [ vm_compute; discriminate | vm_compute; reflexivity ].
Defined.


(** X13 on the sample runs: a wallet that holds a PSBT, and the wallet
    that waits for its second signer. *)
Lemma create_psbt_refused_witness :
  create_psbt 5 "recipient" 1000
    (world_of (wallet_signing no_signature) quiet_node) =
    (Raised (JunctionError "PSBT already present"),
     world_of (wallet_signing no_signature) quiet_node) /\
  create_psbt 5 "recipient" 1000 (world_of wallet_waiting quiet_node) =
    (Raised (JunctionError "2 signers required, 1 registered"),
     world_of wallet_waiting quiet_node).
Proof.
  split.
  - refine (proj1 (create_psbt_refused 5 "recipient" 1000
                     (world_of (wallet_signing no_signature) quiet_node)) _).
    reflexivity.
  - refine (proj2 (create_psbt_refused 4 "recipient" 1000
                     (world_of wallet_waiting quiet_node)) _ _);
      reflexivity.
Defined.


(** X15 on the sample run: the same creation with a [deserialize] that
    rejects the node's text. *)
Lemma create_psbt_rejected_text_witness :
  exists w',
    create_psbt (Ext := strict_externals) 5 "recipient" 1000
      (world_of wallet_2of2 quiet_node)
      = (Raised (OtherException "Invalid PSBT"), w') /\
    psbt_truthy (psbt (self w')) = true /\
    forall depth' recipient' satoshis',
      create_psbt (Ext := strict_externals) depth' recipient' satoshis' w' =
        (Raised (JunctionError "PSBT already present"), w').
Proof.
  refine (create_psbt_rejected_text (Ext := strict_externals)
            5 "recipient" 1000 (world_of wallet_2of2 quiet_node)
            "addr0"
            (snd (address (Ext := strict_externals) 5
                    (world_of wallet_2of2 quiet_node)))
            "cHNidP8BAFICAAAA" quiet_node
            (OtherException "Invalid PSBT") _ _ _ _).
  - reflexivity.
  - vm_compute. reflexivity.
  - vm_compute. reflexivity.
  - reflexivity.
Defined.

(** X16 on the sample run: [broadcast] on a fully signed wallet. *)
Lemma broadcast_outcomes_witness :
  match psbt (wallet_signing two_signatures) with
  | PsbtObject p =>
      (exists x,
          fst (broadcast (world_of (wallet_signing two_signatures) quiet_node))
            = Raised x /\
          requests_since (world_of (wallet_signing two_signatures) quiet_node)
            (snd (broadcast (world_of (wallet_signing two_signatures) quiet_node)))
          = [mkRequest (Some "shared") (finalizepsbt (psbt_serialize p)) false])
      \/
      (exists tx_hex nd,
          node_call (Some "shared") (finalizepsbt (psbt_serialize p)) quiet_node
            = (Returned tx_hex, nd) /\
          fst (node_call (Some "shared") (sendrawtransaction tx_hex) nd)
            = fst (broadcast (world_of (wallet_signing two_signatures) quiet_node))
          /\
          requests_since (world_of (wallet_signing two_signatures) quiet_node)
            (snd (broadcast (world_of (wallet_signing two_signatures) quiet_node)))
          = [mkRequest (Some "shared") (finalizepsbt (psbt_serialize p)) true;
             mkRequest (Some "shared") (sendrawtransaction tx_hex)
               (returned
                  (fst (broadcast
                          (world_of (wallet_signing two_signatures) quiet_node))))])
  | _ =>
      snd (broadcast (world_of (wallet_signing two_signatures) quiet_node))
        = world_of (wallet_signing two_signatures) quiet_node /\
      exists msg,
        fst (broadcast (world_of (wallet_signing two_signatures) quiet_node))
          = Raised (AttributeError msg)
  end.
Proof.
  refine (broadcast_outcomes
            (world_of (wallet_signing two_signatures) quiet_node)
            (fst (broadcast (world_of (wallet_signing two_signatures) quiet_node)))
            (snd (broadcast (world_of (wallet_signing two_signatures) quiet_node)))
            _).
  vm_compute. reflexivity.
Defined.

(** X17 on the sample run: a node with the aggregate query and no
    watch-only section. *)
Lemma balances_aggregate_witness :
  fst (balances (world_of wallet_2of2 aggregate_node)) = Returned (0, 0).
Proof.
  refine (f_equal fst
            (balances_aggregate (world_of wallet_2of2 aggregate_node)
               (mkBalancesInfo None) aggregate_node _)).
  reflexivity.
Defined.

(** X18 on the sample run: a node that does not answer. *)
Lemma balances_both_fail_witness :
  fst (balances (world_of wallet_2of2 dead_node))
    = Raised (OtherException "Connection refused").
Proof.
  refine (proj1 (balances_both_fail (world_of wallet_2of2 dead_node)
                   (OtherException "Connection refused") dead_node
                   (OtherException "Connection refused") dead_node _ _));
    reflexivity.
Defined.

(** X19 on the sample run: the allocation that skips one candidate. *)
Lemma address_returns_sorted_witness :
  exists nd ai,
    node_call
      (Some (name (self (snd (address 5 (world_of wallet_2of2 skipping_node))))))
      (getaddressinfo "addr1") nd
      = (Returned ai,
         node (outside (snd (address 5 (world_of wallet_2of2 skipping_node)))))
    /\
    iswatchonly ai = true /\
    Sorted (fun x y => String.leb x y = true) (pubkeys ai) /\
    last (requests_since (world_of wallet_2of2 skipping_node)
            (snd (address 5 (world_of wallet_2of2 skipping_node)))) =
      Some (mkRequest
              (Some (name (self (snd (address 5
                                        (world_of wallet_2of2 skipping_node))))))
              (getaddressinfo "addr1") true).
Proof.
  apply (address_returns_sorted 5 (world_of wallet_2of2 skipping_node) "addr1").
  vm_compute. reflexivity.
Defined.

(** X20 on the sample run: the first export cycle of the 2-of-2
    wallet. *)
Lemma export_watchonly_all_or_nothing_witness :
  self (snd (export_watchonly (world_of wallet_2of2 quiet_node))) =
    set_export_index (0 + 100) wallet_2of2 /\
  disk (outside (snd (export_watchonly (world_of wallet_2of2 quiet_node)))) =
    <[full_path (wallet_file_path wallet_2of2) :=
        to_dict (self (snd (export_watchonly (world_of wallet_2of2 quiet_node))))]>
      ∅.
Proof.
  refine (export_watchonly_all_or_nothing (world_of wallet_2of2 quiet_node)
            (Returned tt)
            (snd (export_watchonly (world_of wallet_2of2 quiet_node))) _).
  vm_compute. reflexivity.
Defined.

(** X21 on the sample run: the allocation that skips one candidate,
    with a limit of 5 and of 6. *)
Lemma address_limit_irrelevant_witness :
  address 6 (world_of wallet_2of2 skipping_node) =
    (Returned "addr1", snd (address 5 (world_of wallet_2of2 skipping_node))).
Proof.
  apply (address_limit_irrelevant 5 (world_of wallet_2of2 skipping_node)).
  - vm_compute. reflexivity.
  - discriminate.
Defined.
